(** * Exercise flow controller ([useExerciseFlow])

    A shallow embedding of the timed question / options / result sequencer
    of [src/hooks/useSpeech.ts] (second document of that file, the hook
    [useExerciseFlow]), together with the part of the JavaScript runtime
    it schedules against: the wall clock read by [Date.now()] and the table
    of pending [setInterval] / [setTimeout] timers.

    Conventions of the embedding.
    - The four [useState] cells and the ten [useRef] cells of the hook form
      the record [Hook].  A callback reads the committed value of a state
      cell: every call enters through the closure of the latest render, and
      a render is committed between two calls.
    - Closures stored in refs or handed to timers are defunctionalised as
      [onEnd]; running one is [runOnEnd].
    - Callbacks owned by the caller ([onQuestionShown],
      [onAnswerPhaseStarted], [onComplete], a custom [onTimeout]) are opaque:
      invoking one appends an [event] to the [trace]; whatever the caller does
      to the controller in reaction is a later [call].
    - Timer handles are positive numbers drawn from a counter, hence always
      truthy and never reused; [clearInterval] and [clearTimeout] on a handle
      whose timer is gone do nothing.
    - The interval callback recomputes the remaining time from the clock on
      its own, so the runtime may run it at any instant ([Fire]); a timeout
      callback runs only once its due time has come. *)

From stdpp Require Import gmap list strings.
From Stdlib Require Import ZArith Lia.

Open Scope Z_scope.

(** ** Data model *)

Inductive ExercisePhase := idle | question | options | processing | result.

#[global] Instance ExercisePhase_eq_dec : EqDecision ExercisePhase.
Proof. solve_decision. Defined.

(** [ExerciseFlowConfig]: every field is optional in the source. The two
    tracking callbacks are opaque, only their presence matters. *)
Record ExerciseFlowConfig := {
  cfg_questionDuration : option Z;
  cfg_optionsDuration : option Z;
  cfg_resultDuration : option Z;
  cfg_onQuestionShown : bool;
  cfg_onAnswerPhaseStarted : bool
}.

Record FinalConfig := {
  questionDuration : Z;
  optionsDuration : Z;
  resultDuration : Z;
  onQuestionShown : bool;
  onAnswerPhaseStarted : bool
}.

Definition DEFAULT_CONFIG : FinalConfig :=
  {| questionDuration := 1000; optionsDuration := 4000;
     resultDuration := 1500;
     onQuestionShown := false; onAnswerPhaseStarted := false |}.

Definition COUNTDOWN_INTERVAL : Z := 50.

(** [{ ...DEFAULT_CONFIG, ...config }] *)
Definition finalConfig (config : ExerciseFlowConfig) : FinalConfig :=
  {| questionDuration :=
       default (questionDuration DEFAULT_CONFIG) (cfg_questionDuration config);
     optionsDuration :=
       default (optionsDuration DEFAULT_CONFIG) (cfg_optionsDuration config);
     resultDuration :=
       default (resultDuration DEFAULT_CONFIG) (cfg_resultDuration config);
     onQuestionShown := cfg_onQuestionShown config;
     onAnswerPhaseStarted := cfg_onAnswerPhaseStarted config |}.

Record StartOptions := {
  delayOptionsCountdown : bool;
  delayQuestionCountdown : bool
}.

(** [start()] with no argument: both flags default to [false]. *)
Definition noDelay : StartOptions :=
  {| delayOptionsCountdown := false; delayQuestionCountdown := false |}.

(** Calls of caller-owned callbacks, in the order they happen. *)
Inductive event :=
| QuestionShown
| AnswerPhaseStarted
| Complete
| CallerTimeout (tag : nat).

(** The end-of-countdown closures of the source:
    [questionOnEnd] of [start] (it captures [delayOptionsCountdown]),
    [() => enterResult(-1)] of [start] and [startOptionsCountdown], and a
    caller-supplied [onTimeout]. *)
Inductive onEnd :=
| questionOnEnd (delayOptions : bool)
| optionsTimeout
| callerOnTimeout (tag : nat).

#[global] Instance onEnd_eq_dec : EqDecision onEnd.
Proof. solve_decision. Defined.

Definition handle := positive.

(** A pending timer of the runtime. An interval remembers what its closure
    captured ([start], [duration], [onEnd]); a timeout remembers when it is
    due (its closure, the call of [onComplete], captures nothing). *)
Inductive timer :=
| Interval (period start duration : Z) (cb : onEnd)
| Timeout (due : Z).

Definition is_interval (t : timer) : bool :=
  match t with Interval _ _ _ _ => true | Timeout _ => false end.

Definition is_timeout (t : timer) : bool :=
  match t with Interval _ _ _ _ => false | Timeout _ => true end.

(** The state cells and refs of one hook instance. *)
Record Hook := mkHook {
  phase : ExercisePhase;
  remainingMs : Z;
  selectedIndex : option Z;
  isPaused : bool;
  timerRef : option handle;
  resultTimeoutRef : option handle;
  optionsStartTimeRef : option Z;
  responseTimeMsRef : option Z;
  pausedRemainingRef : Z;
  pausedOnEndRef : option onEnd;
  currentOnEndRef : option onEnd;
  resultStartTimeRef : Z;
  pausedResultRemainingRef : Z;
  pendingCountdownRef : option (Z * onEnd)
}.

(** The hook together with the runtime it runs in. *)
Record World := mkWorld {
  hook : Hook;
  now : Z;
  timers : gmap handle timer;
  nextHandle : handle;
  trace : list event
}.

(** Values of [useState(...)] and [useRef(...)] at construction. *)
Definition initialHook : Hook :=
  {| phase := idle; remainingMs := 0; selectedIndex := None;
     isPaused := false;
     timerRef := None; resultTimeoutRef := None;
     optionsStartTimeRef := None; responseTimeMsRef := None;
     pausedRemainingRef := 0; pausedOnEndRef := None;
     currentOnEndRef := None;
     resultStartTimeRef := 0; pausedResultRemainingRef := 0;
     pendingCountdownRef := None |}.

Definition initialWorld (t0 : Z) : World :=
  {| hook := initialHook; now := t0; timers := ∅; nextHandle := 1%positive;
     trace := [] |}.

(** ** Assignments to one cell *)

Definition set_phase (v : ExercisePhase) (h : Hook) : Hook :=
  {| phase := v; remainingMs := remainingMs h; selectedIndex :=
     selectedIndex h; isPaused := isPaused h; timerRef := timerRef h;
     resultTimeoutRef := resultTimeoutRef h; optionsStartTimeRef :=
     optionsStartTimeRef h; responseTimeMsRef := responseTimeMsRef h;
     pausedRemainingRef := pausedRemainingRef h; pausedOnEndRef :=
     pausedOnEndRef h; currentOnEndRef := currentOnEndRef h;
     resultStartTimeRef := resultStartTimeRef h; pausedResultRemainingRef
     := pausedResultRemainingRef h; pendingCountdownRef :=
     pendingCountdownRef h |}.

Definition set_remainingMs (v : Z) (h : Hook) : Hook :=
  {| phase := phase h; remainingMs := v; selectedIndex := selectedIndex h;
     isPaused := isPaused h; timerRef := timerRef h; resultTimeoutRef :=
     resultTimeoutRef h; optionsStartTimeRef := optionsStartTimeRef h;
     responseTimeMsRef := responseTimeMsRef h; pausedRemainingRef :=
     pausedRemainingRef h; pausedOnEndRef := pausedOnEndRef h;
     currentOnEndRef := currentOnEndRef h; resultStartTimeRef :=
     resultStartTimeRef h; pausedResultRemainingRef :=
     pausedResultRemainingRef h; pendingCountdownRef :=
     pendingCountdownRef h |}.

Definition set_selectedIndex (v : option Z) (h : Hook) : Hook :=
  {| phase := phase h; remainingMs := remainingMs h; selectedIndex := v;
     isPaused := isPaused h; timerRef := timerRef h; resultTimeoutRef :=
     resultTimeoutRef h; optionsStartTimeRef := optionsStartTimeRef h;
     responseTimeMsRef := responseTimeMsRef h; pausedRemainingRef :=
     pausedRemainingRef h; pausedOnEndRef := pausedOnEndRef h;
     currentOnEndRef := currentOnEndRef h; resultStartTimeRef :=
     resultStartTimeRef h; pausedResultRemainingRef :=
     pausedResultRemainingRef h; pendingCountdownRef :=
     pendingCountdownRef h |}.

Definition set_isPaused (v : bool) (h : Hook) : Hook :=
  {| phase := phase h; remainingMs := remainingMs h; selectedIndex :=
     selectedIndex h; isPaused := v; timerRef := timerRef h;
     resultTimeoutRef := resultTimeoutRef h; optionsStartTimeRef :=
     optionsStartTimeRef h; responseTimeMsRef := responseTimeMsRef h;
     pausedRemainingRef := pausedRemainingRef h; pausedOnEndRef :=
     pausedOnEndRef h; currentOnEndRef := currentOnEndRef h;
     resultStartTimeRef := resultStartTimeRef h; pausedResultRemainingRef
     := pausedResultRemainingRef h; pendingCountdownRef :=
     pendingCountdownRef h |}.

Definition set_timerRef (v : option handle) (h : Hook) : Hook :=
  {| phase := phase h; remainingMs := remainingMs h; selectedIndex :=
     selectedIndex h; isPaused := isPaused h; timerRef := v;
     resultTimeoutRef := resultTimeoutRef h; optionsStartTimeRef :=
     optionsStartTimeRef h; responseTimeMsRef := responseTimeMsRef h;
     pausedRemainingRef := pausedRemainingRef h; pausedOnEndRef :=
     pausedOnEndRef h; currentOnEndRef := currentOnEndRef h;
     resultStartTimeRef := resultStartTimeRef h; pausedResultRemainingRef
     := pausedResultRemainingRef h; pendingCountdownRef :=
     pendingCountdownRef h |}.

Definition set_resultTimeoutRef (v : option handle) (h : Hook) : Hook :=
  {| phase := phase h; remainingMs := remainingMs h; selectedIndex :=
     selectedIndex h; isPaused := isPaused h; timerRef := timerRef h;
     resultTimeoutRef := v; optionsStartTimeRef := optionsStartTimeRef h;
     responseTimeMsRef := responseTimeMsRef h; pausedRemainingRef :=
     pausedRemainingRef h; pausedOnEndRef := pausedOnEndRef h;
     currentOnEndRef := currentOnEndRef h; resultStartTimeRef :=
     resultStartTimeRef h; pausedResultRemainingRef :=
     pausedResultRemainingRef h; pendingCountdownRef :=
     pendingCountdownRef h |}.

Definition set_optionsStartTimeRef (v : option Z) (h : Hook) : Hook :=
  {| phase := phase h; remainingMs := remainingMs h; selectedIndex :=
     selectedIndex h; isPaused := isPaused h; timerRef := timerRef h;
     resultTimeoutRef := resultTimeoutRef h; optionsStartTimeRef := v;
     responseTimeMsRef := responseTimeMsRef h; pausedRemainingRef :=
     pausedRemainingRef h; pausedOnEndRef := pausedOnEndRef h;
     currentOnEndRef := currentOnEndRef h; resultStartTimeRef :=
     resultStartTimeRef h; pausedResultRemainingRef :=
     pausedResultRemainingRef h; pendingCountdownRef :=
     pendingCountdownRef h |}.

Definition set_responseTimeMsRef (v : option Z) (h : Hook) : Hook :=
  {| phase := phase h; remainingMs := remainingMs h; selectedIndex :=
     selectedIndex h; isPaused := isPaused h; timerRef := timerRef h;
     resultTimeoutRef := resultTimeoutRef h; optionsStartTimeRef :=
     optionsStartTimeRef h; responseTimeMsRef := v; pausedRemainingRef :=
     pausedRemainingRef h; pausedOnEndRef := pausedOnEndRef h;
     currentOnEndRef := currentOnEndRef h; resultStartTimeRef :=
     resultStartTimeRef h; pausedResultRemainingRef :=
     pausedResultRemainingRef h; pendingCountdownRef :=
     pendingCountdownRef h |}.

Definition set_pausedRemainingRef (v : Z) (h : Hook) : Hook :=
  {| phase := phase h; remainingMs := remainingMs h; selectedIndex :=
     selectedIndex h; isPaused := isPaused h; timerRef := timerRef h;
     resultTimeoutRef := resultTimeoutRef h; optionsStartTimeRef :=
     optionsStartTimeRef h; responseTimeMsRef := responseTimeMsRef h;
     pausedRemainingRef := v; pausedOnEndRef := pausedOnEndRef h;
     currentOnEndRef := currentOnEndRef h; resultStartTimeRef :=
     resultStartTimeRef h; pausedResultRemainingRef :=
     pausedResultRemainingRef h; pendingCountdownRef :=
     pendingCountdownRef h |}.

Definition set_pausedOnEndRef (v : option onEnd) (h : Hook) : Hook :=
  {| phase := phase h; remainingMs := remainingMs h; selectedIndex :=
     selectedIndex h; isPaused := isPaused h; timerRef := timerRef h;
     resultTimeoutRef := resultTimeoutRef h; optionsStartTimeRef :=
     optionsStartTimeRef h; responseTimeMsRef := responseTimeMsRef h;
     pausedRemainingRef := pausedRemainingRef h; pausedOnEndRef := v;
     currentOnEndRef := currentOnEndRef h; resultStartTimeRef :=
     resultStartTimeRef h; pausedResultRemainingRef :=
     pausedResultRemainingRef h; pendingCountdownRef :=
     pendingCountdownRef h |}.

Definition set_currentOnEndRef (v : option onEnd) (h : Hook) : Hook :=
  {| phase := phase h; remainingMs := remainingMs h; selectedIndex :=
     selectedIndex h; isPaused := isPaused h; timerRef := timerRef h;
     resultTimeoutRef := resultTimeoutRef h; optionsStartTimeRef :=
     optionsStartTimeRef h; responseTimeMsRef := responseTimeMsRef h;
     pausedRemainingRef := pausedRemainingRef h; pausedOnEndRef :=
     pausedOnEndRef h; currentOnEndRef := v; resultStartTimeRef :=
     resultStartTimeRef h; pausedResultRemainingRef :=
     pausedResultRemainingRef h; pendingCountdownRef :=
     pendingCountdownRef h |}.

Definition set_resultStartTimeRef (v : Z) (h : Hook) : Hook :=
  {| phase := phase h; remainingMs := remainingMs h; selectedIndex :=
     selectedIndex h; isPaused := isPaused h; timerRef := timerRef h;
     resultTimeoutRef := resultTimeoutRef h; optionsStartTimeRef :=
     optionsStartTimeRef h; responseTimeMsRef := responseTimeMsRef h;
     pausedRemainingRef := pausedRemainingRef h; pausedOnEndRef :=
     pausedOnEndRef h; currentOnEndRef := currentOnEndRef h;
     resultStartTimeRef := v; pausedResultRemainingRef :=
     pausedResultRemainingRef h; pendingCountdownRef :=
     pendingCountdownRef h |}.

Definition set_pausedResultRemainingRef (v : Z) (h : Hook) : Hook :=
  {| phase := phase h; remainingMs := remainingMs h; selectedIndex :=
     selectedIndex h; isPaused := isPaused h; timerRef := timerRef h;
     resultTimeoutRef := resultTimeoutRef h; optionsStartTimeRef :=
     optionsStartTimeRef h; responseTimeMsRef := responseTimeMsRef h;
     pausedRemainingRef := pausedRemainingRef h; pausedOnEndRef :=
     pausedOnEndRef h; currentOnEndRef := currentOnEndRef h;
     resultStartTimeRef := resultStartTimeRef h; pausedResultRemainingRef
     := v; pendingCountdownRef := pendingCountdownRef h |}.

Definition set_pendingCountdownRef (v : option (Z * onEnd)) (h : Hook) : Hook :=
  {| phase := phase h; remainingMs := remainingMs h; selectedIndex :=
     selectedIndex h; isPaused := isPaused h; timerRef := timerRef h;
     resultTimeoutRef := resultTimeoutRef h; optionsStartTimeRef :=
     optionsStartTimeRef h; responseTimeMsRef := responseTimeMsRef h;
     pausedRemainingRef := pausedRemainingRef h; pausedOnEndRef :=
     pausedOnEndRef h; currentOnEndRef := currentOnEndRef h;
     resultStartTimeRef := resultStartTimeRef h; pausedResultRemainingRef
     := pausedResultRemainingRef h; pendingCountdownRef := v |}.

Definition on_hook (f : Hook -> Hook) (w : World) : World :=
  {| hook := f (hook w); now := now w; timers := timers w;
     nextHandle := nextHandle w; trace := trace w |}.

Definition set_timers (m : gmap handle timer) (w : World) : World :=
  {| hook := hook w; now := now w; timers := m;
     nextHandle := nextHandle w; trace := trace w |}.

Definition emit (e : event) (w : World) : World :=
  {| hook := hook w; now := now w; timers := timers w;
     nextHandle := nextHandle w; trace := trace w ++ [e] |}.

(** [cb?.()] for an optional caller callback. *)
Definition emit_if (present : bool) (e : event) (w : World) : World :=
  if present then emit e w else w.

(** ** The runtime: clock and timers *)

(** Real time passes; the clock never runs backwards. *)
Definition advance (d : Z) (w : World) : World :=
  {| hook := hook w; now := now w + Z.max 0 d; timers := timers w;
     nextHandle := nextHandle w; trace := trace w |}.

(** [clearInterval(h)] and [clearTimeout(h)] share one id space. *)
Definition clearInterval (h : handle) (w : World) : World :=
  set_timers (delete h (timers w)) w.

Definition clearTimeout (h : handle) (w : World) : World :=
  set_timers (delete h (timers w)) w.

(** Registering a timer returns a fresh handle. *)
Definition addTimer (t : timer) (w : World) : handle * World :=
  (nextHandle w,
   {| hook := hook w; now := now w; timers := <[nextHandle w := t]> (timers w);
      nextHandle := Pos.succ (nextHandle w); trace := trace w |}).

(** [setTimeout(cb, delay)]: a negative delay counts as zero. *)
Definition setTimeout (delay : Z) (w : World) : handle * World :=
  addTimer (Timeout (now w + Z.max 0 delay)) w.

Definition setInterval (start duration : Z) (cb : onEnd) (w : World)
  : handle * World :=
  addTimer (Interval COUNTDOWN_INTERVAL start duration cb) w.

(** ** The hook *)

Section ExerciseFlow.

(** Arguments of [useExerciseFlow(config, onComplete)]; of [onComplete]
    only the presence matters ([onCompleteRef.current?.()]). *)
Variable config : ExerciseFlowConfig.
Variable onComplete : bool.

(** [clearTimer] *)
Definition clearTimer (w : World) : World :=
  let w :=
    match timerRef (hook w) with
    | Some h => on_hook (set_timerRef None) (clearInterval h w)
    | None => w
    end in
  match resultTimeoutRef (hook w) with
  | Some h => on_hook (set_resultTimeoutRef None) (clearTimeout h w)
  | None => w
  end.

(** [startCountdown(duration, onEnd)] *)
Definition startCountdown (duration : Z) (cb : onEnd) (w : World) : World :=
  let w :=
    match timerRef (hook w) with
    | Some h => clearInterval h w
    | None => w
    end in
  let w := on_hook (set_currentOnEndRef (Some cb)) w in
  let start := now w in
  let w := on_hook (set_remainingMs duration) w in
  let '(h, w) := setInterval start duration cb w in
  on_hook (set_timerRef (Some h)) w.

(** The conditional capture shared by [enterProcessing] and [enterResult]. *)
Definition recordResponseTime (w : World) : World :=
  match optionsStartTimeRef (hook w), responseTimeMsRef (hook w) with
  | Some t0, None => on_hook (set_responseTimeMsRef (Some (now w - t0))) w
  | _, _ => w
  end.

(** [resultTimeoutRef.current = setTimeout(() => onCompleteRef.current?.(),
    delay)] *)
Definition scheduleResultTimeout (delay : Z) (w : World) : World :=
  let '(h, w) := setTimeout delay w in
  on_hook (set_resultTimeoutRef (Some h)) w.

(** [enterProcessing()] *)
Definition enterProcessing (w : World) : World :=
  let w := clearTimer w in
  let w := on_hook (set_phase processing) w in
  recordResponseTime w.

(** [enterResult(optionIndex, skipResultTimeout = false)] *)
Definition enterResult (optionIndex : Z) (skipResultTimeout : bool)
  (w : World) : World :=
  let w := clearTimer w in
  let w := on_hook (set_selectedIndex (Some optionIndex)) w in
  let w := on_hook (set_phase result) w in
  let w := recordResponseTime w in
  if negb skipResultTimeout then
    let w := on_hook (set_resultStartTimeRef (now w)) w in
    scheduleResultTimeout (resultDuration (finalConfig config)) w
  else w.

(** [startResultTimeout()] *)
Definition startResultTimeout (w : World) : World :=
  if decide (phase (hook w) = result) then
    let w :=
      match resultTimeoutRef (hook w) with
      | Some h => clearTimeout h w
      | None => w
      end in
    scheduleResultTimeout (resultDuration (finalConfig config)) w
  else w.

(** Running an end-of-countdown closure. *)
Definition runOnEnd (cb : onEnd) (w : World) : World :=
  match cb with
  | questionOnEnd delayOptions =>
      let w := on_hook (set_phase options) w in
      let w := on_hook (set_optionsStartTimeRef (Some (now w))) w in
      let w :=
        emit_if (onAnswerPhaseStarted (finalConfig config))
          AnswerPhaseStarted w in
      if negb delayOptions then
        startCountdown (optionsDuration (finalConfig config)) optionsTimeout w
      else w
  | optionsTimeout => enterResult (-1) false w
  | callerOnTimeout tag => emit (CallerTimeout tag) w
  end.

(** [start(options = {})] *)
Definition start (o : StartOptions) (w : World) : World :=
  let w := clearTimer w in
  let w := on_hook (set_selectedIndex None) w in
  let w := on_hook (set_phase question) w in
  let w := emit_if (onQuestionShown (finalConfig config)) QuestionShown w in
  let cb := questionOnEnd (delayOptionsCountdown o) in
  if delayQuestionCountdown o then
    let w := on_hook (set_remainingMs (questionDuration (finalConfig config))) w in
    let w :=
      on_hook (set_pendingCountdownRef
                 (Some (questionDuration (finalConfig config), cb))) w in
    on_hook (set_currentOnEndRef (Some cb)) w
  else
    startCountdown (questionDuration (finalConfig config)) cb w.

(** [startOptionsCountdown(onTimeout?)] *)
Definition startOptionsCountdown (onTimeout : option nat) (w : World)
  : World :=
  if decide (phase (hook w) = options) then
    let w := on_hook (set_optionsStartTimeRef (Some (now w))) w in
    startCountdown (optionsDuration (finalConfig config))
      (match onTimeout with
       | Some tag => callerOnTimeout tag
       | None => optionsTimeout
       end) w
  else w.

(** [startQuestionCountdown()] *)
Definition startQuestionCountdown (w : World) : World :=
  match pendingCountdownRef (hook w) with
  | Some (duration, cb) =>
      let w := on_hook (set_pendingCountdownRef None) w in
      let w := on_hook (set_isPaused false) w in
      startCountdown duration cb w
  | None => w
  end.

(** [select(index, skipResultTimeout = false)] *)
Definition select (index : Z) (skipResultTimeout : bool) (w : World)
  : World :=
  if negb (bool_decide (phase (hook w) = options))
     || negb (bool_decide (selectedIndex (hook w) = None))
  then w
  else enterResult index skipResultTimeout w.

(** [updateSelectedIndex(index)] *)
Definition updateSelectedIndex (index : Z) (w : World) : World :=
  if decide (phase (hook w) = result) then
    on_hook (set_selectedIndex (Some index)) w
  else w.

(** [pause()] *)
Definition pause (w : World) : World :=
  let w :=
    match timerRef (hook w) with
    | Some h => on_hook (set_timerRef None) (clearInterval h w)
    | None => w
    end in
  let w := on_hook (set_pausedRemainingRef (remainingMs (hook w))) w in
  let w := on_hook (set_pausedOnEndRef (currentOnEndRef (hook w))) w in
  let w :=
    match resultTimeoutRef (hook w) with
    | Some h =>
        let w := on_hook (set_resultTimeoutRef None) (clearTimeout h w) in
        let elapsed := now w - resultStartTimeRef (hook w) in
        on_hook (set_pausedResultRemainingRef
                   (Z.max 0 (resultDuration (finalConfig config) - elapsed))) w
    | None => w
    end in
  on_hook (set_isPaused true) w.

(** [resume()] *)
Definition resume (w : World) : World :=
  let w := on_hook (set_isPaused false) w in
  if bool_decide (phase (hook w) = result)
     && (0 <? pausedResultRemainingRef (hook w)) then
    let w := on_hook (set_resultStartTimeRef (now w)) w in
    let w := scheduleResultTimeout (pausedResultRemainingRef (hook w)) w in
    on_hook (set_pausedResultRemainingRef 0) w
  else
    let savedOnEnd := pausedOnEndRef (hook w) in
    let savedRemaining := pausedRemainingRef (hook w) in
    let w :=
      match savedOnEnd with
      | Some cb =>
          if 0 <? savedRemaining then startCountdown savedRemaining cb w
          else runOnEnd cb w
      | None => w
      end in
    on_hook (set_pausedOnEndRef None) w.

(** [reset()] *)
Definition reset (w : World) : World :=
  let w := clearTimer w in
  let w := on_hook (set_phase idle) w in
  let w := on_hook (set_selectedIndex None) w in
  let w := on_hook (set_remainingMs 0) w in
  let w := on_hook (set_isPaused false) w in
  let w := on_hook (set_optionsStartTimeRef None) w in
  let w := on_hook (set_responseTimeMsRef None) w in
  let w := on_hook (set_pausedRemainingRef 0) w in
  let w := on_hook (set_pausedOnEndRef None) w in
  let w := on_hook (set_currentOnEndRef None) w in
  let w := on_hook (set_pendingCountdownRef None) w in
  let w := on_hook (set_resultStartTimeRef 0) w in
  on_hook (set_pausedResultRemainingRef 0) w.

(** [getResponseTimeMs()] *)
Definition getResponseTimeMs (w : World) : option Z :=
  responseTimeMsRef (hook w).

(** *** Timer callbacks *)

(** The closure given to [setInterval] in [startCountdown]. *)
Definition intervalCallback (start duration : Z) (cb : onEnd) (w : World)
  : World :=
  let elapsed := now w - start in
  let remaining := Z.max 0 (duration - elapsed) in
  let w := on_hook (set_remainingMs remaining) w in
  if remaining <=? 0 then
    let w :=
      match timerRef (hook w) with
      | Some h => on_hook (set_timerRef None) (clearInterval h w)
      | None => w
      end in
    runOnEnd cb w
  else w.

(** The closure given to [setTimeout]: [onCompleteRef.current?.()]. *)
Definition resultTimeoutCallback (w : World) : World :=
  emit_if onComplete Complete w.

(** The runtime runs the callback of timer [h]. An interval stays
    registered; a timeout runs once, and not before it is due. *)
Definition fire (h : handle) (w : World) : World :=
  match timers w !! h with
  | Some (Interval _ start duration cb) => intervalCallback start duration cb w
  | Some (Timeout due) =>
      if due <=? now w then
        resultTimeoutCallback (set_timers (delete h (timers w)) w)
      else w
  | None => w
  end.

(** The next tick of the countdown held in [timerRef]. *)
Definition tick (w : World) : World :=
  match timerRef (hook w) with
  | Some h => fire h w
  | None => w
  end.

(** *** Histories *)

Inductive call :=
| Start (o : StartOptions)
| StartOptionsCountdown (onTimeout : option nat)
| StartQuestionCountdown
| Select (index : Z) (skipResultTimeout : bool)
| UpdateSelectedIndex (index : Z)
| EnterProcessing
| EnterResult (optionIndex : Z) (skipResultTimeout : bool)
| StartResultTimeout
| Pause
| Resume
| Reset
| ClearTimer
| Advance (d : Z)
| Fire (h : handle).

Definition step (c : call) (w : World) : World :=
  match c with
  | Start o => start o w
  | StartOptionsCountdown onTimeout => startOptionsCountdown onTimeout w
  | StartQuestionCountdown => startQuestionCountdown w
  | Select index skip => select index skip w
  | UpdateSelectedIndex index => updateSelectedIndex index w
  | EnterProcessing => enterProcessing w
  | EnterResult i skip => enterResult i skip w
  | StartResultTimeout => startResultTimeout w
  | Pause => pause w
  | Resume => resume w
  | Reset => reset w
  | ClearTimer => clearTimer w
  | Advance d => advance d w
  | Fire h => fire h w
  end.

Definition run (l : list call) (w : World) : World :=
  fold_left (fun w c => step c w) l w.

End ExerciseFlow.

(** * Vocabulary of the properties *)

(** [clearInterval] / [clearTimeout] of the handle held in a ref, if any. *)
Definition cancel (o : option handle) (m : gmap handle timer)
  : gmap handle timer :=
  match o with
  | Some h => delete h m
  | None => m
  end.

(** Every pending timer of kind [kind] is the one whose handle is stored in
    the ref [ref]. As a ref holds one handle, at most one such timer is
    pending. *)
Definition tracked (kind : timer -> bool) (ref : Hook -> option handle)
  (w : World) : Prop :=
  forall h t, timers w !! h = Some t -> kind t = true -> ref (hook w) = Some h.

(** No timer of kind [kind] is pending. *)
Definition vacant (kind : timer -> bool) (w : World) : Prop :=
  forall h t, timers w !! h = Some t -> kind t = false.

Definition intervals_tracked : World -> Prop := tracked is_interval timerRef.

Definition timeouts_tracked : World -> Prop :=
  tracked is_timeout resultTimeoutRef.

(** A response time is only ever present together with an options start
    timestamp. *)
Definition captured_after_options (w : World) : Prop :=
  responseTimeMsRef (hook w) = None \/ optionsStartTimeRef (hook w) <> None.

(** From [w] to [w'] a captured response time is kept, and
    [captured_after_options] is kept. *)
Definition keeps_response (w w' : World) : Prop :=
  (forall r, responseTimeMsRef (hook w) = Some r ->
             responseTimeMsRef (hook w') = Some r) /\
  (captured_after_options w -> captured_after_options w').

(** Calls that stay within the current cycle. *)
Definition within_cycle (c : call) : bool :=
  match c with
  | Reset | Start _ => false
  | _ => true
  end.

(** What [enterProcessing] and [enterResult] leave in the two refs. *)
Definition capture (w : World) : option Z :=
  match optionsStartTimeRef (hook w), responseTimeMsRef (hook w) with
  | Some t0, None => Some (now w - t0)
  | _, r => r
  end.

(** [useExerciseFlow({ onQuestionShown, onAnswerPhaseStarted }, onComplete)]:
    default durations, all callbacks given. *)
Definition defaultConfig : ExerciseFlowConfig :=
  {| cfg_questionDuration := None; cfg_optionsDuration := None;
     cfg_resultDuration := None;
     cfg_onQuestionShown := true; cfg_onAnswerPhaseStarted := true |}.

Definition delayQuestion : StartOptions :=
  {| delayOptionsCountdown := false; delayQuestionCountdown := true |}.

Definition delayOptions : StartOptions :=
  {| delayOptionsCountdown := true; delayQuestionCountdown := false |}.

(** The calls the single-timer property speaks about, with the passing of
    time and the firing of timers. *)
Definition timer_call (c : call) : bool :=
  match c with
  | Start _ | StartOptionsCountdown _ | StartQuestionCountdown
  | Select _ _ | Advance _ | Fire _ => true
  | _ => false
  end.

(** What the runtime does on its own: time passes, timers fire. *)
Definition runtime_call (c : call) : bool :=
  match c with
  | Advance _ | Fire _ => true
  | _ => false
  end.

(** A listening item is started with its countdown deferred, the next item
    is started before the audio ends, it is answered, and only then the
    audio callback of the first item calls [startQuestionCountdown]. *)
Definition staleDescriptorRun : list call :=
  [ Start delayQuestion; Start noDelay; Advance 1000; Fire 1%positive;
    Advance 500; Select 2 false; StartQuestionCountdown ].

(** A speaking item: the options countdown is deferred until the recorder
    is ready, two seconds into the options phase. *)
Definition rearmedOptionsRun : list call :=
  [ Start delayOptions; Advance 1000; Fire 1%positive; Advance 2000;
    StartOptionsCountdown None; Advance 500 ].

(** Two items in a row with no [reset()] in between: the first is answered
    500 ms into its options phase, the second has been in its options
    phase, begun at 4000, for 2000 ms. *)
Definition secondCycleRun : list call :=
  [ Start noDelay; Advance 1000; Fire 1%positive; Advance 500;
    Select 0 false; Advance 1500; Fire 3%positive;
    Start noDelay; Advance 1000; Fire 4%positive; Advance 2000 ].

(** The countdown held in [timerRef] is interval [h], started at [st] for
    [dur] milliseconds with end callback [cb]. *)
Definition counting (w : World) (h : handle) (st dur : Z) (cb : onEnd)
  : Prop :=
  timerRef (hook w) = Some h /\
  timers w !! h = Some (Interval COUNTDOWN_INTERVAL st dur cb).

Definition total (ds : list Z) : Z := fold_right Z.add 0 ds.

(** Waiting times of ticks that all come before [dur] has elapsed. *)
Definition before (dur : Z) (ds : list Z) : Prop :=
  Forall (fun d => 0 <= d) ds /\ (ds = [] \/ total ds < dur).


Section Vocabulary.

Variable config : ExerciseFlowConfig.
Variable onComplete : bool.

(** [d] milliseconds pass, then the countdown interval fires. *)
Definition waitTick (d : Z) (w : World) : World :=
  tick config onComplete (advance d w).

Definition ticks (ds : list Z) (w : World) : World :=
  fold_left (fun w d => waitTick d w) ds w.



End Vocabulary.

(** ** Further vocabulary: invariants of the hook *)

(** The displayed time and a deferred countdown's duration are not
    negative. *)
Definition display_nonneg (w : World) : Prop :=
  0 <= remainingMs (hook w) /\
  forall d cb, pendingCountdownRef (hook w) = Some (d, cb) -> 0 <= d.

(** No answer is held before the options phase, and one is held throughout
    the result phase. *)
Definition selection_consistent (w : World) : Prop :=
  (phase (hook w) = idle \/ phase (hook w) = question ->
   selectedIndex (hook w) = None) /\
  (phase (hook w) = result -> selectedIndex (hook w) <> None).

(** The options start timestamp is not in the future and the response time
    is not negative. *)
Definition times_ordered (w : World) : Prop :=
  (forall t, optionsStartTimeRef (hook w) = Some t -> t <= now w) /\
  (forall r, responseTimeMsRef (hook w) = Some r -> 0 <= r).

(** The configured question and options durations are not negative. *)
Definition durations_nonneg (config : ExerciseFlowConfig) : Prop :=
  0 <= questionDuration (finalConfig config) /\
  0 <= optionsDuration (finalConfig config).

Definition sane (config : ExerciseFlowConfig) (w : World) : Prop :=
  (durations_nonneg config -> display_nonneg w) /\
  selection_consistent w /\ times_ordered w.

(** Every call but [resume]. *)
Definition no_resume (c : call) : bool :=
  match c with
  | Resume => false
  | _ => true
  end.

(** * The display phase countdown ([useDisplayPhase])

    The hook of the word display screen: while [isActive] it counts
    [duration] down and then calls [onComplete]. Its effect has the
    dependency list [isActive, duration, onComplete, onStart, clearTimer];
    a committed render whose dependencies differ from those of the last
    one runs the cleanup of the old effect and then the new effect. The
    caller's closures are told apart by their identity, a number. *)

Module DisplayPhase.

Definition DISPLAY_DURATION : Z := 3000.
Definition COUNTDOWN_INTERVAL : Z := 50.

Record UseDisplayPhaseOptions := {
  isActive : bool;
  onComplete : nat;
  onStart : option nat;
  duration : option Z
}.

(** [duration = DISPLAY_DURATION] in the parameter list. *)
Definition durationOf (p : UseDisplayPhaseOptions) : Z :=
  default DISPLAY_DURATION (duration p).

(** The values the effect depends on ([clearTimer] never changes). *)
Definition deps (p : UseDisplayPhaseOptions)
  : bool * Z * nat * option nat :=
  (isActive p, durationOf p, onComplete p, onStart p).

Inductive event :=
| Started (cb : nat)
| Completed (cb : nat).

(** The closure given to [setInterval] captures [start], [duration] and
    [onComplete]. *)
Record interval := {
  period : Z;
  startedAt : Z;
  lasts : Z;
  completes : nat
}.

Record World := {
  remainingMs : Z;
  timerRef : option handle;
  lastDeps : option (bool * Z * nat * option nat);
  now : Z;
  timers : gmap handle interval;
  nextHandle : handle;
  trace : list event
}.

Definition setRemainingMs (v : Z) (w : World) : World :=
  {| remainingMs := v; timerRef := timerRef w; lastDeps := lastDeps w;
     now := now w; timers := timers w; nextHandle := nextHandle w;
     trace := trace w |}.

Definition set_timerRef (v : option handle) (w : World) : World :=
  {| remainingMs := remainingMs w; timerRef := v; lastDeps := lastDeps w;
     now := now w; timers := timers w; nextHandle := nextHandle w;
     trace := trace w |}.

Definition set_lastDeps (v : option (bool * Z * nat * option nat))
  (w : World) : World :=
  {| remainingMs := remainingMs w; timerRef := timerRef w; lastDeps := v;
     now := now w; timers := timers w; nextHandle := nextHandle w;
     trace := trace w |}.

Definition emit (e : event) (w : World) : World :=
  {| remainingMs := remainingMs w; timerRef := timerRef w;
     lastDeps := lastDeps w; now := now w; timers := timers w;
     nextHandle := nextHandle w; trace := trace w ++ [e] |}.

Definition advance (d : Z) (w : World) : World :=
  {| remainingMs := remainingMs w; timerRef := timerRef w;
     lastDeps := lastDeps w; now := now w + Z.max 0 d; timers := timers w;
     nextHandle := nextHandle w; trace := trace w |}.

Definition clearInterval (h : handle) (w : World) : World :=
  {| remainingMs := remainingMs w; timerRef := timerRef w;
     lastDeps := lastDeps w; now := now w; timers := delete h (timers w);
     nextHandle := nextHandle w; trace := trace w |}.

Definition setInterval (i : interval) (w : World) : handle * World :=
  (nextHandle w,
   {| remainingMs := remainingMs w; timerRef := timerRef w;
      lastDeps := lastDeps w; now := now w;
      timers := <[nextHandle w := i]> (timers w);
      nextHandle := Pos.succ (nextHandle w); trace := trace w |}).

(** [clearTimer] *)
Definition clearTimer (w : World) : World :=
  match timerRef w with
  | Some h => set_timerRef None (clearInterval h w)
  | None => w
  end.

(** The body of the countdown effect. *)
Definition effect (p : UseDisplayPhaseOptions) (w : World) : World :=
  if isActive p then
    let w :=
      match onStart p with
      | Some cb => emit (Started cb) w
      | None => w
      end in
    let start := now w in
    let w := setRemainingMs (durationOf p) w in
    let '(h, w) :=
      setInterval
        {| period := COUNTDOWN_INTERVAL; startedAt := start;
           lasts := durationOf p; completes := onComplete p |} w in
    set_timerRef (Some h) w
  else w.

(** The first render: [useState(duration)], then the effect. *)
Definition mount (p : UseDisplayPhaseOptions) (t0 : Z) : World :=
  effect p
    {| remainingMs := durationOf p; timerRef := None;
       lastDeps := Some (deps p); now := t0; timers := ∅;
       nextHandle := 1%positive; trace := [] |}.

(** A later committed render with props [p]; nothing is rendered once
    the component is unmounted. *)
Definition render (p : UseDisplayPhaseOptions) (w : World) : World :=
  match lastDeps w with
  | Some d =>
      if decide (d = deps p) then w
      else effect p (set_lastDeps (Some (deps p)) (clearTimer w))
  | None => w
  end.

(** Unmounting runs the cleanups of both effects. *)
Definition unmount (w : World) : World :=
  set_lastDeps None (clearTimer (clearTimer w)).

(** The closure given to [setInterval]. *)
Definition intervalCallback (i : interval) (w : World) : World :=
  let elapsed := now w - startedAt i in
  let remaining := Z.max 0 (lasts i - elapsed) in
  let w := setRemainingMs remaining w in
  if remaining <=? 0 then emit (Completed (completes i)) (clearTimer w)
  else w.

Definition fire (h : handle) (w : World) : World :=
  match timers w !! h with
  | Some i => intervalCallback i w
  | None => w
  end.

Inductive call :=
| Render (p : UseDisplayPhaseOptions)
| ClearTimer
| Unmount
| Advance (d : Z)
| Fire (h : handle).

Definition step (c : call) (w : World) : World :=
  match c with
  | Render p => render p w
  | ClearTimer => clearTimer w
  | Unmount => unmount w
  | Advance d => advance d w
  | Fire h => fire h w
  end.

Definition run (l : list call) (w : World) : World :=
  fold_left (fun w c => step c w) l w.

(** Every pending interval is the one held in [timerRef]. *)
Definition tracked (w : World) : Prop :=
  forall h i, timers w !! h = Some i -> timerRef w = Some h.

(** What the runtime does on its own. *)
Definition runtime_call (c : call) : bool :=
  match c with
  | Advance _ | Fire _ => true
  | _ => false
  end.

(** Every rendered duration is non-negative. *)
Definition durations_nonneg (c : call) : Prop :=
  match c with
  | Render p => 0 <= durationOf p
  | _ => True
  end.

(** [d] milliseconds pass, then interval [h] fires. *)
Definition waitFire (h : handle) (d : Z) (w : World) : World :=
  fire h (advance d w).

Definition ticks (h : handle) (ds : list Z) (w : World) : World :=
  fold_left (fun w d => waitFire h d w) ds w.

(** Interval [h], described by [i], is the only timer pending and is held
    in [timerRef]. *)
Definition running (w : World) (h : handle) (i : interval) : Prop :=
  timerRef w = Some h /\ timers w = {[h := i]}.

(** [w0] is the state right after the countdown is activated with props
    [p]: at mount, or at a later render whose dependencies changed. *)
Definition activated (p : UseDisplayPhaseOptions) (w0 : World) : Prop :=
  isActive p = true /\
  ((exists t0, w0 = mount p t0) \/
   (exists p0 t0 l,
       lastDeps (run l (mount p0 t0)) <> None /\
       lastDeps (run l (mount p0 t0)) <> Some (deps p) /\
       w0 = render p (run l (mount p0 t0)))).

End DisplayPhase.

(** * Exercise helpers

    Strings are sequences of bytes (UTF-8); [startsWith] with an ASCII
    argument and concatenation read the same on them as on the code units
    of the source. *)

(** [s.startsWith(p)] *)
Definition startsWith (s p : string) : bool := String.prefix p s.

(** [s.includes(t)] *)
Fixpoint includes (s t : string) : bool :=
  if String.prefix t s then true
  else
    match s with
    | EmptyString => false
    | String _ s' => includes s' t
    end.

Definition getExerciseCategory (type : string) : string :=
  if startsWith type "reading" then "reading"
  else if startsWith type "listening" then "listening"
  else "speaking".

Definition getExerciseTitle (category : string) : string :=
  if String.eqb category "reading" then "閱讀練習"
  else if String.eqb category "listening" then "聽力練習"
  else if String.eqb category "speaking" then "口說練習"
  else "練習".

(** ["practice" | "review"] *)
Inductive PoolType := practice | review.

Definition getPoolLabel (pool : string) (type : PoolType) : string :=
  match type with
  | review => "複習池 " +:+ pool
  | practice =>
      if startsWith pool "P" then "練習池 " +:+ pool
      else "複習池 " +:+ pool
  end.

Section SpeakingAnswer.

(** [String.prototype.toLowerCase] and [String.prototype.trim] of the
    runtime. *)
Variable toLowerCase : string -> string.
Variable trim : string -> string.

Definition checkSpeakingAnswer (transcript correctWord : string) : bool :=
  let normalizedTranscript := trim (toLowerCase transcript) in
  let normalizedCorrect := trim (toLowerCase correctWord) in
  includes normalizedTranscript normalizedCorrect.

End SpeakingAnswer.

(** The copies of the helpers kept by the screens and the badge. *)
Module PracticeScreen.

Definition getExerciseCategory (type : string) : string :=
  if startsWith type "reading" then "reading"
  else if startsWith type "listening" then "listening"
  else "speaking".

Definition getExerciseTitle (category : string) : string :=
  if String.eqb category "reading" then "閱讀練習"
  else if String.eqb category "listening" then "聽力練習"
  else if String.eqb category "speaking" then "口說練習"
  else "練習".

Definition getPoolLabel (pool : string) : string :=
  if startsWith pool "P" then "練習池 " +:+ pool
  else "複習池 " +:+ pool.

End PracticeScreen.

Module ReviewScreen.

Definition getPoolLabel (pool : string) : string := "複習池 " +:+ pool.

End ReviewScreen.

Module PoolBadge.

(** The inner [getPoolLabel] closes over the prop [type]. *)
Definition getPoolLabel (type : PoolType) (pool : string) : string :=
  match type with
  | review => "複習池 " +:+ pool
  | practice =>
      if startsWith pool "P" then "練習池 " +:+ pool
      else "複習池 " +:+ pool
  end.

End PoolBadge.

(** * The refresh signal

    The single-subscriber publish/subscribe of [refreshSignal]; callbacks
    are told apart by their identity, a number. *)

Module RefreshSignal.

(** The module variable [subscriber] and the callbacks called so far. *)
Record State := {
  subscriber : option nat;
  called : list nat
}.

Definition initial : State := {| subscriber := None; called := [] |}.

(** [subscribe(callback)]; the function it returns is [unsubscribe
    callback]. *)
Definition subscribe (callback : nat) (s : State) : State :=
  {| subscriber := Some callback; called := called s |}.

Definition unsubscribe (callback : nat) (s : State) : State :=
  if decide (subscriber s = Some callback)
  then {| subscriber := None; called := called s |}
  else s.

(** [trigger()] *)
Definition trigger (s : State) : State :=
  match subscriber s with
  | Some cb => {| subscriber := subscriber s; called := called s ++ [cb] |}
  | None => s
  end.

End RefreshSignal.

(** * Option highlighting and the progress bar *)

Module ExerciseOptions.

Inductive stateStyle :=
| optionDefault | optionCorrect | optionIncorrect | optionSelected.

(** The choice of [stateStyle] in [OptionButton]. *)
Definition OptionButton (isSelected isCorrect showResult : bool)
  : stateStyle :=
  if showResult then
    if isCorrect then optionCorrect
    else if isSelected && negb isCorrect then optionIncorrect
    else optionDefault
  else if isSelected then optionSelected
  else optionDefault.

(** [options.map((option, index) => <OptionButton .../>)] for [n]
    options: the style of each button in order. *)
Definition ExerciseOptions (n : nat) (selectedIndex correctIndex : option Z)
  (showResult : bool) : list stateStyle :=
  map (fun index : nat =>
         OptionButton
           (bool_decide (selectedIndex = Some (Z.of_nat index)))
           (bool_decide (Some (Z.of_nat index) = correctIndex))
           showResult)
      (seq 0 n).

End ExerciseOptions.

Module ProgressBar.

Inductive itemStyle :=
| progressBarSuccess | progressBarDestructive
| progressBarPrimary | progressBarMuted.

(** [Array.from({ length })]: the indices [0 .. length - 1]; a negative
    length gives the empty array. *)
Definition indices (length : Z) : list nat := seq 0 (Z.to_nat length).

(** The items rendered by [ProgressBar({ total, currentIndex, answers })],
    in order; [answers] holds the [correct] flag of each answer. *)
Definition ProgressBar (total currentIndex : Z) (answers : option (list bool))
  : list itemStyle :=
  match answers with
  | Some answers =>
      let answeredCount := Z.of_nat (length answers) in
      let pendingCount := total - answeredCount in
      map (fun correct : bool =>
             if correct then progressBarSuccess else progressBarDestructive)
          answers
      ++ map (fun i : nat =>
                if decide (i = 0%nat) then progressBarPrimary
                else progressBarMuted)
             (indices pendingCount)
  | None =>
      map (fun i : nat =>
             if Z.of_nat i <? currentIndex then progressBarSuccess
             else if Z.of_nat i =? currentIndex then progressBarPrimary
             else progressBarMuted)
          (indices total)
  end.

End ProgressBar.

(** * Properties *)

Ltac map_inv :=
  repeat match goal with
  | H : delete _ _ !! _ = Some _ |- _ =>
      apply lookup_delete_Some in H; destruct H
  | H : <[_:=_]> _ !! _ = Some _ |- _ =>
      apply lookup_insert_Some in H; destruct H as [[? ?]|[? ?]]
  end.

(** ** Which timers are pending *)

Section Tracking.

Variable kind : timer -> bool.
Variable ref : Hook -> option handle.

Lemma vacant_tracked w : vacant kind w -> tracked kind ref w.
Proof. intros Hv h t Hl Hk. rewrite (Hv _ _ Hl) in Hk. discriminate. Qed.

Lemma tracked_None_vacant w :
  tracked kind ref w -> ref (hook w) = None -> vacant kind w.
Proof.
  intros Hw Hr h t Hl. destruct (kind t) eqn:Hk; [|reflexivity].
  specialize (Hw _ _ Hl Hk). congruence.
Qed.

Lemma tracked_release w h :
  tracked kind ref w -> ref (hook w) = Some h ->
  vacant kind (set_timers (delete h (timers w)) w).
Proof.
  intros Hw Hr h' t; simpl. intros Hl. map_inv.
  destruct (kind t) eqn:Hk; [|reflexivity].
  specialize (Hw _ _ H0 Hk). congruence.
Qed.

Lemma vacant_on_hook f w : vacant kind w -> vacant kind (on_hook f w).
Proof. intros Hv h t; simpl. apply Hv. Qed.

Lemma vacant_delete h w :
  vacant kind w -> vacant kind (set_timers (delete h (timers w)) w).
Proof. intros Hv h' t; simpl. intros Hl. map_inv. eauto. Qed.

Lemma vacant_emit e w : vacant kind w -> vacant kind (emit e w).
Proof. intros Hv h t; simpl. apply Hv. Qed.

Lemma vacant_emit_if b e w : vacant kind w -> vacant kind (emit_if b e w).
Proof. destruct b; simpl; auto using vacant_emit. Qed.

Lemma vacant_advance d w : vacant kind w -> vacant kind (advance d w).
Proof. intros Hv h t; simpl. apply Hv. Qed.

Lemma vacant_addTimer t w :
  kind t = false -> vacant kind w -> vacant kind (addTimer t w).2.
Proof. intros Hk Hv h' t'; simpl. intros Hl. map_inv; subst; eauto. Qed.

Lemma tracked_on_hook f w :
  ref (f (hook w)) = ref (hook w) ->
  tracked kind ref w -> tracked kind ref (on_hook f w).
Proof. intros Hf Hw h t; simpl. rewrite Hf. apply Hw. Qed.

Lemma tracked_delete h w :
  tracked kind ref w -> tracked kind ref (set_timers (delete h (timers w)) w).
Proof. intros Hw h' t; simpl. intros Hl. map_inv. eauto. Qed.

Lemma tracked_emit e w : tracked kind ref w -> tracked kind ref (emit e w).
Proof. intros Hw h t; simpl. apply Hw. Qed.

Lemma tracked_emit_if b e w :
  tracked kind ref w -> tracked kind ref (emit_if b e w).
Proof. destruct b; simpl; auto using tracked_emit. Qed.

Lemma tracked_advance d w :
  tracked kind ref w -> tracked kind ref (advance d w).
Proof. intros Hw h t; simpl. apply Hw. Qed.

Lemma tracked_addTimer_other t w :
  kind t = false -> tracked kind ref w -> tracked kind ref (addTimer t w).2.
Proof.
  intros Hk Hw h' t'; simpl. intros Hl Hk'. map_inv; subst; eauto.
  congruence.
Qed.

(** A new timer may take over the ref once no timer of its kind is left. *)
Lemma vacant_addTimer_tracked f t w :
  vacant kind w ->
  ref (f (hook w)) = Some (nextHandle w) ->
  tracked kind ref (on_hook f (addTimer t w).2).
Proof.
  intros Hv Hf h' t'; simpl. intros Hl Hk. map_inv; subst; eauto.
  rewrite (Hv _ _ H0) in Hk. discriminate.
Qed.

End Tracking.

Section TrackingFlow.

Variable config : ExerciseFlowConfig.
Variable onComplete : bool.

Lemma clearTimer_vacant_intervals w :
  intervals_tracked w -> vacant is_interval (clearTimer w).
Proof.
  intros Hw. unfold clearTimer. cbv zeta.
  set (w1 := match timerRef (hook w) with
             | Some h => on_hook (set_timerRef None) (clearInterval h w)
             | None => w
             end).
  assert (Hv : vacant is_interval w1).
  { subst w1. destruct (timerRef (hook w)) eqn:E.
    - apply vacant_on_hook. eapply tracked_release; eauto.
    - eapply tracked_None_vacant; eauto. }
  destruct (resultTimeoutRef (hook w1)); [|exact Hv].
  apply vacant_on_hook, vacant_delete, Hv.
Qed.

Lemma clearTimer_vacant_timeouts w :
  timeouts_tracked w -> vacant is_timeout (clearTimer w).
Proof.
  intros Hw. unfold clearTimer. cbv zeta.
  set (w1 := match timerRef (hook w) with
             | Some h => on_hook (set_timerRef None) (clearInterval h w)
             | None => w
             end).
  assert (Hv : timeouts_tracked w1).
  { subst w1. destruct (timerRef (hook w)) eqn:E; [|exact Hw].
    apply tracked_on_hook; [reflexivity|]. apply tracked_delete, Hw. }
  destruct (resultTimeoutRef (hook w1)) eqn:E.
  - apply vacant_on_hook. eapply tracked_release; eauto.
  - eapply tracked_None_vacant; eauto.
Qed.

Lemma startCountdown_intervals d cb w :
  intervals_tracked w -> intervals_tracked (startCountdown d cb w).
Proof.
  intros Hw. unfold startCountdown, setInterval. cbv zeta.
  set (w1 := match timerRef (hook w) with
             | Some h => clearInterval h w
             | None => w
             end).
  assert (Hv : vacant is_interval w1).
  { subst w1. destruct (timerRef (hook w)) eqn:E.
    - eapply tracked_release; eauto.
    - eapply tracked_None_vacant; eauto. }
  apply (vacant_addTimer_tracked is_interval timerRef (set_timerRef _));
    [|reflexivity].
  now do 2 apply vacant_on_hook.
Qed.

Lemma startCountdown_timeouts d cb w :
  timeouts_tracked w -> timeouts_tracked (startCountdown d cb w).
Proof.
  intros Hw. unfold startCountdown, setInterval. cbv zeta.
  set (w1 := match timerRef (hook w) with
             | Some h => clearInterval h w
             | None => w
             end).
  assert (Hv : timeouts_tracked w1).
  { subst w1. destruct (timerRef (hook w)); [|exact Hw].
    apply tracked_delete, Hw. }
  apply tracked_on_hook; [reflexivity|].
  apply tracked_addTimer_other; [reflexivity|].
  now do 2 (apply tracked_on_hook; [reflexivity|]).
Qed.

Lemma scheduleResultTimeout_intervals d w :
  intervals_tracked w -> intervals_tracked (scheduleResultTimeout d w).
Proof.
  intros Hw. unfold scheduleResultTimeout, setTimeout.
  apply tracked_on_hook; [reflexivity|].
  apply tracked_addTimer_other; [reflexivity|exact Hw].
Qed.

Lemma scheduleResultTimeout_vacant d w :
  vacant is_timeout w -> timeouts_tracked (scheduleResultTimeout d w).
Proof.
  intros Hv. unfold scheduleResultTimeout, setTimeout.
  now apply (vacant_addTimer_tracked is_timeout resultTimeoutRef
               (set_resultTimeoutRef _)).
Qed.

Lemma recordResponseTime_vacant kind w :
  vacant kind w -> vacant kind (recordResponseTime w).
Proof.
  intros Hv. unfold recordResponseTime.
  repeat case_match; auto using vacant_on_hook.
Qed.

Lemma recordResponseTime_tracked kind ref w :
  (forall v h, ref (set_responseTimeMsRef v h) = ref h) ->
  tracked kind ref w -> tracked kind ref (recordResponseTime w).
Proof.
  intros Hr Hw. unfold recordResponseTime.
  repeat case_match; auto. apply tracked_on_hook; auto.
Qed.

Lemma enterResult_intervals i skip w :
  intervals_tracked w -> intervals_tracked (enterResult config i skip w).
Proof.
  intros Hw. unfold enterResult. cbv zeta.
  assert (Hv : vacant is_interval
    (recordResponseTime
       (on_hook (set_phase result)
          (on_hook (set_selectedIndex (Some i)) (clearTimer w))))).
  { apply recordResponseTime_vacant. do 2 apply vacant_on_hook.
    now apply clearTimer_vacant_intervals. }
  destruct (negb skip).
  - apply scheduleResultTimeout_intervals, vacant_tracked.
    now apply vacant_on_hook.
  - now apply vacant_tracked.
Qed.

Lemma enterResult_timeouts i skip w :
  timeouts_tracked w -> timeouts_tracked (enterResult config i skip w).
Proof.
  intros Hw. unfold enterResult. cbv zeta.
  assert (Hv : vacant is_timeout
    (recordResponseTime
       (on_hook (set_phase result)
          (on_hook (set_selectedIndex (Some i)) (clearTimer w))))).
  { apply recordResponseTime_vacant. do 2 apply vacant_on_hook.
    now apply clearTimer_vacant_timeouts. }
  destruct (negb skip).
  - apply scheduleResultTimeout_vacant. now apply vacant_on_hook.
  - now apply vacant_tracked.
Qed.

Lemma runOnEnd_intervals cb w :
  intervals_tracked w -> intervals_tracked (runOnEnd config cb w).
Proof.
  intros Hw. destruct cb as [d| |tag]; simpl.
  - destruct (negb d).
    + apply startCountdown_intervals, tracked_emit_if.
      now do 2 (apply tracked_on_hook; [reflexivity|]).
    + apply tracked_emit_if.
      now do 2 (apply tracked_on_hook; [reflexivity|]).
  - now apply enterResult_intervals.
  - now apply tracked_emit.
Qed.

Lemma runOnEnd_timeouts cb w :
  timeouts_tracked w -> timeouts_tracked (runOnEnd config cb w).
Proof.
  intros Hw. destruct cb as [d| |tag]; simpl.
  - destruct (negb d).
    + apply startCountdown_timeouts, tracked_emit_if.
      now do 2 (apply tracked_on_hook; [reflexivity|]).
    + apply tracked_emit_if.
      now do 2 (apply tracked_on_hook; [reflexivity|]).
  - now apply enterResult_timeouts.
  - now apply tracked_emit.
Qed.

Lemma start_intervals o w :
  intervals_tracked w -> intervals_tracked (start config o w).
Proof.
  intros Hw. unfold start. cbv zeta.
  assert (Hv : vacant is_interval
    (emit_if (onQuestionShown (finalConfig config)) QuestionShown
       (on_hook (set_phase question)
          (on_hook (set_selectedIndex None) (clearTimer w))))).
  { apply vacant_emit_if. do 2 apply vacant_on_hook.
    now apply clearTimer_vacant_intervals. }
  destruct (delayQuestionCountdown o).
  - apply vacant_tracked. now do 3 apply vacant_on_hook.
  - now apply startCountdown_intervals, vacant_tracked.
Qed.

Lemma start_timeouts o w :
  timeouts_tracked w -> timeouts_tracked (start config o w).
Proof.
  intros Hw. unfold start. cbv zeta.
  assert (Hv : vacant is_timeout
    (emit_if (onQuestionShown (finalConfig config)) QuestionShown
       (on_hook (set_phase question)
          (on_hook (set_selectedIndex None) (clearTimer w))))).
  { apply vacant_emit_if. do 2 apply vacant_on_hook.
    now apply clearTimer_vacant_timeouts. }
  destruct (delayQuestionCountdown o).
  - apply vacant_tracked. now do 3 apply vacant_on_hook.
  - now apply startCountdown_timeouts, vacant_tracked.
Qed.

Lemma startOptionsCountdown_intervals t w :
  intervals_tracked w ->
  intervals_tracked (startOptionsCountdown config t w).
Proof.
  intros Hw. unfold startOptionsCountdown. case_decide; [|exact Hw].
  apply startCountdown_intervals. now apply tracked_on_hook.
Qed.

Lemma startOptionsCountdown_timeouts t w :
  timeouts_tracked w -> timeouts_tracked (startOptionsCountdown config t w).
Proof.
  intros Hw. unfold startOptionsCountdown. case_decide; [|exact Hw].
  apply startCountdown_timeouts. now apply tracked_on_hook.
Qed.

Lemma startQuestionCountdown_intervals w :
  intervals_tracked w -> intervals_tracked (startQuestionCountdown w).
Proof.
  intros Hw. unfold startQuestionCountdown.
  destruct (pendingCountdownRef (hook w)) as [[d cb]|]; [|exact Hw].
  apply startCountdown_intervals.
  now do 2 (apply tracked_on_hook; [reflexivity|]).
Qed.

Lemma startQuestionCountdown_timeouts w :
  timeouts_tracked w -> timeouts_tracked (startQuestionCountdown w).
Proof.
  intros Hw. unfold startQuestionCountdown.
  destruct (pendingCountdownRef (hook w)) as [[d cb]|]; [|exact Hw].
  apply startCountdown_timeouts.
  now do 2 (apply tracked_on_hook; [reflexivity|]).
Qed.

Lemma select_intervals i skip w :
  intervals_tracked w -> intervals_tracked (select config i skip w).
Proof.
  intros Hw. unfold select. case_match; [exact Hw|].
  now apply enterResult_intervals.
Qed.

Lemma select_timeouts i skip w :
  timeouts_tracked w -> timeouts_tracked (select config i skip w).
Proof.
  intros Hw. unfold select. case_match; [exact Hw|].
  now apply enterResult_timeouts.
Qed.

Lemma intervalCallback_intervals st d cb w :
  intervals_tracked w ->
  intervals_tracked (intervalCallback config st d cb w).
Proof.
  intros Hw. unfold intervalCallback. cbv zeta.
  set (w1 := on_hook (set_remainingMs (Z.max 0 (d - (now w - st)))) w).
  assert (H1 : intervals_tracked w1) by now apply tracked_on_hook.
  case_match; [|exact H1]. apply runOnEnd_intervals.
  destruct (timerRef (hook w1)) eqn:E; [|exact H1].
  apply vacant_tracked, vacant_on_hook. eapply tracked_release; eauto.
Qed.

Lemma intervalCallback_timeouts st d cb w :
  timeouts_tracked w ->
  timeouts_tracked (intervalCallback config st d cb w).
Proof.
  intros Hw. unfold intervalCallback. cbv zeta.
  set (w1 := on_hook (set_remainingMs (Z.max 0 (d - (now w - st)))) w).
  assert (H1 : timeouts_tracked w1) by now apply tracked_on_hook.
  case_match; [|exact H1]. apply runOnEnd_timeouts.
  destruct (timerRef (hook w1)) eqn:E; [|exact H1].
  apply tracked_on_hook; [reflexivity|]. now apply tracked_delete.
Qed.

Lemma fire_intervals h w :
  intervals_tracked w -> intervals_tracked (fire config onComplete h w).
Proof.
  intros Hw. unfold fire, resultTimeoutCallback.
  destruct (timers w !! h) as [[p st d cb|due]|]; [| |exact Hw].
  - now apply intervalCallback_intervals.
  - case_match; [|exact Hw]. now apply tracked_emit_if, tracked_delete.
Qed.

Lemma fire_timeouts h w :
  timeouts_tracked w -> timeouts_tracked (fire config onComplete h w).
Proof.
  intros Hw. unfold fire, resultTimeoutCallback.
  destruct (timers w !! h) as [[p st d cb|due]|]; [| |exact Hw].
  - now apply intervalCallback_timeouts.
  - case_match; [|exact Hw]. now apply tracked_emit_if, tracked_delete.
Qed.

Lemma enterProcessing_intervals w :
  intervals_tracked w -> intervals_tracked (enterProcessing w).
Proof.
  intros Hw. unfold enterProcessing. cbv zeta.
  apply vacant_tracked, recordResponseTime_vacant, vacant_on_hook.
  now apply clearTimer_vacant_intervals.
Qed.

Lemma startResultTimeout_intervals w :
  intervals_tracked w -> intervals_tracked (startResultTimeout config w).
Proof.
  intros Hw. unfold startResultTimeout. case_decide; [|exact Hw].
  cbv zeta. apply scheduleResultTimeout_intervals.
  destruct (resultTimeoutRef (hook w)); [|exact Hw]. now apply tracked_delete.
Qed.

Lemma pause_intervals w :
  intervals_tracked w -> intervals_tracked (pause config w).
Proof.
  intros Hw. unfold pause. cbv zeta.
  set (w1 := match timerRef (hook w) with
             | Some h => on_hook (set_timerRef None) (clearInterval h w)
             | None => w
             end).
  assert (Hv : vacant is_interval w1).
  { subst w1. destruct (timerRef (hook w)) eqn:E.
    - apply vacant_on_hook. eapply tracked_release; eauto.
    - eapply tracked_None_vacant; eauto. }
  apply vacant_tracked, vacant_on_hook.
  set (w3 := on_hook _ (on_hook _ w1)).
  assert (H3 : vacant is_interval w3) by now do 2 apply vacant_on_hook.
  destruct (resultTimeoutRef (hook w3)); [|exact H3].
  now do 2 apply vacant_on_hook; apply vacant_delete.
Qed.

Lemma resume_intervals w :
  intervals_tracked w -> intervals_tracked (resume config w).
Proof.
  intros Hw. unfold resume. cbv zeta.
  set (w1 := on_hook (set_isPaused false) w).
  assert (H1 : intervals_tracked w1) by now apply tracked_on_hook.
  case_match.
  - apply tracked_on_hook; [reflexivity|].
    apply scheduleResultTimeout_intervals. now apply tracked_on_hook.
  - apply tracked_on_hook; [reflexivity|].
    destruct (pausedOnEndRef (hook w1)); [|exact H1].
    case_match.
    + now apply startCountdown_intervals.
    + now apply runOnEnd_intervals.
Qed.

Lemma reset_intervals w : intervals_tracked w -> intervals_tracked (reset w).
Proof.
  intros Hw. unfold reset. cbv zeta.
  apply vacant_tracked. do 12 apply vacant_on_hook.
  now apply clearTimer_vacant_intervals.
Qed.

(** The countdown interval is tracked along every history. *)
Lemma step_intervals c w :
  intervals_tracked w -> intervals_tracked (step config onComplete c w).
Proof.
  intros Hw. destruct c; simpl.
  - now apply start_intervals.
  - now apply startOptionsCountdown_intervals.
  - now apply startQuestionCountdown_intervals.
  - now apply select_intervals.
  - unfold updateSelectedIndex. case_decide; [|exact Hw].
    now apply tracked_on_hook.
  - now apply enterProcessing_intervals.
  - now apply enterResult_intervals.
  - now apply startResultTimeout_intervals.
  - now apply pause_intervals.
  - now apply resume_intervals.
  - now apply reset_intervals.
  - now apply vacant_tracked, clearTimer_vacant_intervals.
  - now apply tracked_advance.
  - now apply fire_intervals.
Qed.

Lemma run_intervals l w :
  intervals_tracked w -> intervals_tracked (run config onComplete l w).
Proof.
  revert w. induction l as [|c l IH]; intros w Hw; [exact Hw|].
  apply IH, step_intervals, Hw.
Qed.

Lemma initialWorld_vacant kind t0 : vacant kind (initialWorld t0).
Proof. intros h t; simpl. rewrite lookup_empty. discriminate. Qed.

End TrackingFlow.

(** ** Response time bookkeeping *)

Section ResponseTime.

Variable config : ExerciseFlowConfig.
Variable onComplete : bool.

Lemma keeps_response_refl w : keeps_response w w.
Proof. split; auto. Qed.

Lemma keeps_response_trans w1 w2 w3 :
  keeps_response w1 w2 -> keeps_response w2 w3 -> keeps_response w1 w3.
Proof. intros [A1 B1] [A2 B2]. split; auto. Qed.

Lemma keeps_on_hook f w0 w :
  (forall h, responseTimeMsRef (f h) = responseTimeMsRef h) ->
  (forall h, optionsStartTimeRef (f h) = optionsStartTimeRef h) ->
  keeps_response w0 w -> keeps_response w0 (on_hook f w).
Proof.
  intros Hr Ho [A B].
  split; unfold captured_after_options; simpl; rewrite Hr, ?Ho; auto.
Qed.

Lemma keeps_set_timers m w0 w :
  keeps_response w0 w -> keeps_response w0 (set_timers m w).
Proof. intros [A B]. split; auto. Qed.

Lemma keeps_emit e w0 w : keeps_response w0 w -> keeps_response w0 (emit e w).
Proof. intros [A B]. split; auto. Qed.

Lemma keeps_emit_if b e w0 w :
  keeps_response w0 w -> keeps_response w0 (emit_if b e w).
Proof. destruct b; simpl; auto using keeps_emit. Qed.

Lemma keeps_advance d w0 w :
  keeps_response w0 w -> keeps_response w0 (advance d w).
Proof. intros [A B]. split; auto. Qed.

Lemma keeps_addTimer t w0 w :
  keeps_response w0 w -> keeps_response w0 (addTimer t w).2.
Proof. intros [A B]. split; auto. Qed.

Lemma keeps_options_start t w0 w :
  keeps_response w0 w ->
  keeps_response w0 (on_hook (set_optionsStartTimeRef (Some t)) w).
Proof.
  intros [A B]. split; [exact A|].
  intros _. right. simpl. discriminate.
Qed.

Lemma keeps_recordResponseTime w0 w :
  keeps_response w0 w -> keeps_response w0 (recordResponseTime w).
Proof.
  intros Hw. unfold recordResponseTime.
  destruct (optionsStartTimeRef (hook w)) as [t0|] eqn:Eo;
    [destruct (responseTimeMsRef (hook w)) as [r|] eqn:Er|];
    [exact Hw| |exact Hw].
  destruct Hw as [A B]. split.
  - intros r' Hr. specialize (A _ Hr). congruence.
  - intros _. right. simpl. congruence.
Qed.

Lemma keeps_clearTimer w0 w :
  keeps_response w0 w -> keeps_response w0 (clearTimer w).
Proof.
  intros Hw. unfold clearTimer, clearInterval, clearTimeout. cbv zeta.
  set (w1 := match timerRef (hook w) with
             | Some h => on_hook (set_timerRef None) (set_timers _ w)
             | None => w
             end).
  assert (H1 : keeps_response w0 w1).
  { subst w1. destruct (timerRef (hook w)); [|exact Hw].
    now apply keeps_on_hook, keeps_set_timers. }
  destruct (resultTimeoutRef (hook w1)); [|exact H1].
  now apply keeps_on_hook, keeps_set_timers.
Qed.

Lemma keeps_startCountdown d cb w0 w :
  keeps_response w0 w -> keeps_response w0 (startCountdown d cb w).
Proof.
  intros Hw. unfold startCountdown, setInterval, clearInterval. cbv zeta.
  apply keeps_on_hook; [reflexivity..|]. apply keeps_addTimer.
  do 2 (apply keeps_on_hook; [reflexivity..|]).
  destruct (timerRef (hook w)); [|exact Hw]. now apply keeps_set_timers.
Qed.

Lemma keeps_scheduleResultTimeout d w0 w :
  keeps_response w0 w -> keeps_response w0 (scheduleResultTimeout d w).
Proof.
  intros Hw. unfold scheduleResultTimeout, setTimeout.
  now apply keeps_on_hook, keeps_addTimer.
Qed.

Lemma keeps_enterResult i skip w0 w :
  keeps_response w0 w -> keeps_response w0 (enterResult config i skip w).
Proof.
  intros Hw. unfold enterResult. cbv zeta.
  assert (H1 : keeps_response w0
    (recordResponseTime
       (on_hook (set_phase result)
          (on_hook (set_selectedIndex (Some i)) (clearTimer w))))).
  { apply keeps_recordResponseTime.
    do 2 (apply keeps_on_hook; [reflexivity..|]).
    now apply keeps_clearTimer. }
  destruct (negb skip); [|exact H1].
  now apply keeps_scheduleResultTimeout, keeps_on_hook.
Qed.

Lemma keeps_runOnEnd cb w0 w :
  keeps_response w0 w -> keeps_response w0 (runOnEnd config cb w).
Proof.
  intros Hw. destruct cb as [dO| |tag]; simpl.
  - assert (H1 : keeps_response w0
      (emit_if (onAnswerPhaseStarted (finalConfig config)) AnswerPhaseStarted
         (on_hook (set_optionsStartTimeRef (Some (now w)))
            (on_hook (set_phase options) w)))).
    { now apply keeps_emit_if, keeps_options_start, keeps_on_hook. }
    destruct (negb dO); [|exact H1]. now apply keeps_startCountdown.
  - now apply keeps_enterResult.
  - now apply keeps_emit.
Qed.

Lemma keeps_fire h w0 w :
  keeps_response w0 w -> keeps_response w0 (fire config onComplete h w).
Proof.
  intros Hw. unfold fire, intervalCallback, resultTimeoutCallback.
  destruct (timers w !! h) as [[p st d cb|due]|]; [| |exact Hw].
  - cbv zeta.
    set (w1 := on_hook (set_remainingMs (Z.max 0 (d - (now w - st)))) w).
    assert (H1 : keeps_response w0 w1) by now apply keeps_on_hook.
    case_match; [|exact H1]. apply keeps_runOnEnd.
    destruct (timerRef (hook w1)); [|exact H1].
    now apply keeps_on_hook, keeps_set_timers.
  - case_match; [|exact Hw]. now apply keeps_emit_if, keeps_set_timers.
Qed.

Lemma keeps_pause w0 w :
  keeps_response w0 w -> keeps_response w0 (pause config w).
Proof.
  intros Hw. unfold pause, clearInterval, clearTimeout. cbv zeta.
  set (w1 := match timerRef (hook w) with
             | Some h => on_hook (set_timerRef None) (set_timers _ w)
             | None => w
             end).
  assert (H1 : keeps_response w0 w1).
  { subst w1. destruct (timerRef (hook w)); [|exact Hw].
    now apply keeps_on_hook, keeps_set_timers. }
  apply keeps_on_hook; [reflexivity..|].
  set (w3 := on_hook _ (on_hook _ w1)).
  assert (H3 : keeps_response w0 w3).
  { subst w3. now do 2 (apply keeps_on_hook; [reflexivity..|]). }
  destruct (resultTimeoutRef (hook w3)); [|exact H3].
  do 2 (apply keeps_on_hook; [reflexivity..|]). now apply keeps_set_timers.
Qed.

Lemma keeps_resume w0 w :
  keeps_response w0 w -> keeps_response w0 (resume config w).
Proof.
  intros Hw. unfold resume. cbv zeta.
  set (w1 := on_hook (set_isPaused false) w).
  assert (H1 : keeps_response w0 w1) by now apply keeps_on_hook.
  case_match.
  - apply keeps_on_hook; [reflexivity..|].
    now apply keeps_scheduleResultTimeout, keeps_on_hook.
  - apply keeps_on_hook; [reflexivity..|].
    destruct (pausedOnEndRef (hook w1)); [|exact H1].
    case_match.
    + now apply keeps_startCountdown.
    + now apply keeps_runOnEnd.
Qed.


Lemma keeps_step c w :
  within_cycle c = true -> keeps_response w (step config onComplete c w).
Proof.
  pose proof (keeps_response_refl w) as Hw.
  intros Hc. destruct c; try discriminate Hc; simpl.
  - unfold startOptionsCountdown. case_decide; [|exact Hw].
    now apply keeps_startCountdown, keeps_options_start.
  - unfold startQuestionCountdown.
    destruct (pendingCountdownRef (hook w)) as [[d cb]|]; [|exact Hw].
    apply keeps_startCountdown.
    now do 2 (apply keeps_on_hook; [reflexivity..|]).
  - unfold select. case_match; [exact Hw|]. now apply keeps_enterResult.
  - unfold updateSelectedIndex. case_decide; [|exact Hw].
    now apply keeps_on_hook.
  - unfold enterProcessing. cbv zeta.
    now apply keeps_recordResponseTime, keeps_on_hook, keeps_clearTimer.
  - now apply keeps_enterResult.
  - unfold startResultTimeout, clearTimeout. case_decide; [|exact Hw].
    cbv zeta. apply keeps_scheduleResultTimeout.
    destruct (resultTimeoutRef (hook w)); [|exact Hw].
    now apply keeps_set_timers.
  - now apply keeps_pause.
  - now apply keeps_resume.
  - now apply keeps_clearTimer.
  - now apply keeps_advance.
  - now apply keeps_fire.
Qed.

Lemma reset_hook w : hook (reset w) = initialHook.
Proof.
  destruct w as [[? ? ? ? tr rt ? ? ? ? ? ? ? ?] ? ? ? ?].
  destruct tr, rt; reflexivity.
Qed.



End ResponseTime.

(** ** Single active timer (C1) *)

Section SingleTimer.

Variable config : ExerciseFlowConfig.
Variable onComplete : bool.

Lemma step_timeouts c w :
  timer_call c = true ->
  timeouts_tracked w -> timeouts_tracked (step config onComplete c w).
Proof.
  intros Hc Hw. destruct c; try discriminate Hc; simpl.
  - now apply start_timeouts.
  - now apply startOptionsCountdown_timeouts.
  - now apply startQuestionCountdown_timeouts.
  - now apply select_timeouts.
  - now apply tracked_advance.
  - now apply fire_timeouts.
Qed.

Lemma run_timeouts l w :
  forallb timer_call l = true ->
  timeouts_tracked w -> timeouts_tracked (run config onComplete l w).
Proof.
  revert w. induction l as [|c l IH]; intros w Hl Hw; [exact Hw|].
  simpl in Hl. apply andb_prop in Hl as [Hc Hl].
  apply IH; [exact Hl|]. now apply step_timeouts.
Qed.

Lemma startCountdown_only d cb w h t :
  intervals_tracked w ->
  timers (startCountdown d cb w) !! h = Some t -> is_interval t = true ->
  h = nextHandle w /\ t = Interval COUNTDOWN_INTERVAL (now w) d cb.
Proof.
  intros Hw. unfold startCountdown, setInterval, addTimer, clearInterval.
  destruct (timerRef (hook w)) as [h0|] eqn:E; simpl; intros Hl Hk;
    map_inv; subst; auto; specialize (Hw _ _ ltac:(eassumption) Hk);
    congruence.
Qed.

(** C1, amended: along every history of [start], [startOptionsCountdown],
    [startQuestionCountdown] and [select] calls, with time passing and
    timers firing in between, two pending timers of the same kind are one
    and the same, so at most one tick interval and at most one result
    timeout are pending; and once a countdown is started the only tick
    interval pending is the new one. *)
Theorem one_interval_one_timeout (t0 : Z) (l : list call) :
  forallb timer_call l = true ->
  let w := run config onComplete l (initialWorld t0) in
  (forall h1 h2 t1 t2,
      timers w !! h1 = Some t1 -> timers w !! h2 = Some t2 ->
      is_interval t1 = is_interval t2 -> h1 = h2) /\
  (forall d cb h t,
      timers (startCountdown d cb w) !! h = Some t -> is_interval t = true ->
      h = nextHandle w /\ t = Interval COUNTDOWN_INTERVAL (now w) d cb).
Proof.
  intros Hl w.
  assert (Hi : intervals_tracked w).
  { apply run_intervals, vacant_tracked, initialWorld_vacant. }
  assert (Ht : timeouts_tracked w).
  { apply run_timeouts; [exact Hl|].
    apply vacant_tracked, initialWorld_vacant. }
  split.
  - intros h1 h2 t1 t2 H1 H2 Hk.
    destruct (is_interval t1) eqn:K1.
    + pose proof (Hi _ _ H1 K1). symmetry in Hk.
      pose proof (Hi _ _ H2 Hk). congruence.
    + assert (K1' : is_timeout t1 = true) by (destruct t1; easy).
      assert (K2' : is_timeout t2 = true) by (destruct t2; easy).
      pose proof (Ht _ _ H1 K1'). pose proof (Ht _ _ H2 K2'). congruence.
  - intros d cb h t. now apply startCountdown_only.
Qed.

End SingleTimer.

Lemma one_interval_one_timeout_witness :
  forallb timer_call [Start noDelay; Advance 1000; Fire 1%positive] = true /\
  let w := run defaultConfig true [Start noDelay; Advance 1000; Fire 1%positive]
             (initialWorld 0) in
  (forall h1 h2 t1 t2,
      timers w !! h1 = Some t1 -> timers w !! h2 = Some t2 ->
      is_interval t1 = is_interval t2 -> h1 = h2) /\
  (forall d cb h t,
      timers (startCountdown d cb w) !! h = Some t -> is_interval t = true ->
      h = nextHandle w /\ t = Interval COUNTDOWN_INTERVAL (now w) d cb).
Proof.
  split; [reflexivity|].
  apply (one_interval_one_timeout defaultConfig true 0
           [Start noDelay; Advance 1000; Fire 1%positive]).
  reflexivity.
Defined.

(** C1 as stated fails: after [staleDescriptorRun], which consists of the
    four calls only, a result timeout and a tick interval are pending
    together. *)
Lemma single_timer_counterexample :
  forallb timer_call staleDescriptorRun = true /\
  let w := run defaultConfig true staleDescriptorRun (initialWorld 0) in
  phase (hook w) = result /\
  timers w !! 3%positive = Some (Timeout 3000) /\
  timers w !! 4%positive =
    Some (Interval COUNTDOWN_INTERVAL 1500 1000 (questionOnEnd false)) /\
  size (timers w) = 2%nat.
Proof. vm_compute. repeat split. Qed.

(** ** Pausing and resuming with nothing to pause (C2) *)

Section IdlePause.

Variable config : ExerciseFlowConfig.



End IdlePause.



(** ** Response time (C3, C10) *)

Section ResponseTimeClaims.

Variable config : ExerciseFlowConfig.
Variable onComplete : bool.

Lemma enterProcessing_response w :
  getResponseTimeMs (enterProcessing w) = capture w /\
  optionsStartTimeRef (hook (enterProcessing w)) = optionsStartTimeRef (hook w) /\
  now (enterProcessing w) = now w.
Proof.
  destruct w as [[? ? ? ? tr rt os rs ? ? ? ? ? ?] ? ? ? ?].
  destruct tr, rt, os, rs; repeat split.
Qed.

Lemma enterResult_response i skip w :
  getResponseTimeMs (enterResult config i skip w) = capture w.
Proof.
  destruct w as [[? ? ? ? tr rt os rs ? ? ? ? ? ?] ? ? ? ?].
  destruct tr, rt, os, rs, skip; reflexivity.
Qed.

(** C3, amended: the first [enterProcessing] or [enterResult] that finds
    an options start timestamp and no response time yet captures
    [now - timestamp]; the timestamp is written when the question countdown
    ends and written again by [startOptionsCountdown]; once captured, the
    response time survives every call of the cycle, and an [enterResult]
    that follows an [enterProcessing] does not change it. *)
Theorem response_time_captured_once (w : World) :
  (forall t0,
      optionsStartTimeRef (hook w) = Some t0 ->
      responseTimeMsRef (hook w) = None ->
      getResponseTimeMs (enterProcessing w) = Some (now w - t0) /\
      forall i skip,
        getResponseTimeMs (enterResult config i skip w) = Some (now w - t0)) /\
  (forall dO,
      optionsStartTimeRef (hook (runOnEnd config (questionOnEnd dO) w))
      = Some (now w)) /\
  (forall onTimeout,
      phase (hook w) = options ->
      optionsStartTimeRef (hook (startOptionsCountdown config onTimeout w))
      = Some (now w)) /\
  (forall c r,
      within_cycle c = true ->
      getResponseTimeMs w = Some r ->
      getResponseTimeMs (step config onComplete c w) = Some r) /\
  (forall d i skip,
      getResponseTimeMs
        (enterResult config i skip (advance d (enterProcessing w)))
      = getResponseTimeMs (enterProcessing w)).
Proof.
  repeat split.
  - destruct (enterProcessing_response w) as (-> & _).
    unfold capture. now rewrite H, H0.
  - intros i skip. rewrite enterResult_response.
    unfold capture. now rewrite H, H0.
  - intros dO. destruct w as [[? ? ? ? tr ? ? ? ? ? ? ? ? ?] ? ? ? ?].
    simpl. destruct dO, (cfg_onAnswerPhaseStarted config), tr; reflexivity.
  - intros t Hp. unfold startOptionsCountdown.
    rewrite decide_True by exact Hp.
    destruct w as [[? ? ? ? tr ? ? ? ? ? ? ? ? ?] ? ? ? ?].
    destruct tr; reflexivity.
  - intros c r Hc Hr. now apply (keeps_step config onComplete c w Hc).
  - intros d i skip. rewrite enterResult_response.
    destruct (enterProcessing_response w) as (E1 & E2 & E3).
    rewrite E1. unfold capture at 1.
    change (hook (advance d (enterProcessing w)))
      with (hook (enterProcessing w)).
    unfold getResponseTimeMs in E1. rewrite E2, E1. unfold capture.
    destruct (optionsStartTimeRef (hook w)), (responseTimeMsRef (hook w));
      reflexivity.
Qed.


End ResponseTimeClaims.

Lemma response_time_captured_once_witness :
  let w := run defaultConfig true rearmedOptionsRun (initialWorld 0) in
  optionsStartTimeRef (hook w) = Some 3000 /\
  responseTimeMsRef (hook w) = None /\
  getResponseTimeMs (enterProcessing w) = Some (now w - 3000) /\
  getResponseTimeMs
    (enterResult defaultConfig 0 true (advance 200 (enterProcessing w)))
  = getResponseTimeMs (enterProcessing w).
Proof.
  pose proof (response_time_captured_once defaultConfig true
                (run defaultConfig true rearmedOptionsRun (initialWorld 0)))
    as (H1 & _ & _ & _ & H5).
  cbv zeta. split; [reflexivity|]. split; [reflexivity|].
  split.
  - apply (H1 3000); reflexivity.
  - exact (H5 200 0 true).
Defined.

(** C3 as stated fails. With a deferred options countdown the options
    phase begins at 1000, the countdown is re-armed at 3000 and the answer
    comes at 3500: the response time is 500, not the 2500 elapsed since the
    options phase began. And in a second cycle started without [reset()]
    nothing is captured: the answer given 2000 ms into its options phase
    leaves the 500 of the first cycle in place. *)
Lemma response_time_counterexample :
  let entered :=
    run defaultConfig true
      [Start delayOptions; Advance 1000; Fire 1%positive] (initialWorld 0) in
  let w := run defaultConfig true rearmedOptionsRun (initialWorld 0) in
  let w' := run defaultConfig true secondCycleRun (initialWorld 0) in
  (phase (hook entered) = options /\ now entered = 1000 /\
   phase (hook w) = options /\ now w = 3500 /\
   getResponseTimeMs w = None /\
   getResponseTimeMs (select defaultConfig 0 false w) = Some 500 /\
   getResponseTimeMs (select defaultConfig 0 false w) <> Some (3500 - 1000)) /\
  (phase (hook w') = options /\ selectedIndex (hook w') = None /\
   optionsStartTimeRef (hook w') = Some 4000 /\ now w' = 6000 /\
   getResponseTimeMs (select defaultConfig 1 false w') = Some 500 /\
   getResponseTimeMs (select defaultConfig 1 false w') <> Some (6000 - 4000)).
Proof. vm_compute. repeat split; discriminate. Qed.


(** ** Answering twice (C4) *)

Section Select.

Variable config : ExerciseFlowConfig.

Lemma enterResult_view i skip w :
  phase (hook (enterResult config i skip w)) = result /\
  selectedIndex (hook (enterResult config i skip w)) = Some i.
Proof.
  destruct w as [[? ? ? ? tr rt os rs ? ? ? ? ? ?] ? ? ? ?].
  destruct tr, rt, os, rs, skip; split; reflexivity.
Qed.



End Select.


(** ** Reset (C8) *)

Section Reset.

Variable config : ExerciseFlowConfig.
Variable onComplete : bool.


Lemma reset_vacant_timeouts w :
  timeouts_tracked w -> vacant is_timeout (reset w).
Proof.
  intros Hw. unfold reset. cbv zeta. do 12 apply vacant_on_hook.
  now apply clearTimer_vacant_timeouts.
Qed.

Lemma reset_vacant_intervals w :
  intervals_tracked w -> vacant is_interval (reset w).
Proof.
  intros Hw. unfold reset. cbv zeta. do 12 apply vacant_on_hook.
  now apply clearTimer_vacant_intervals.
Qed.

Lemma vacant_empty w :
  vacant is_interval w -> vacant is_timeout w -> timers w = ∅.
Proof.
  intros Hi Ht. apply map_empty. intros h.
  destruct (timers w !! h) as [t|] eqn:E; [|reflexivity].
  pose proof (Hi _ _ E). pose proof (Ht _ _ E). now destruct t.
Qed.


End Reset.


(** ** Calls in the wrong phase (C9) *)

Section WrongPhase.

Variable config : ExerciseFlowConfig.

(** C9: [startOptionsCountdown] outside the options phase and
    [startResultTimeout] outside the result phase return the world they
    were given: no cell, no ref, no timer and no callback is touched. *)
Theorem wrong_phase_ignored (w : World) :
  (forall onTimeout,
      phase (hook w) <> options ->
      startOptionsCountdown config onTimeout w = w) /\
  (phase (hook w) <> result -> startResultTimeout config w = w).
Proof.
  split.
  - intros t Hp. unfold startOptionsCountdown. now rewrite decide_False.
  - intros Hp. unfold startResultTimeout. now rewrite decide_False.
Qed.

End WrongPhase.

Lemma wrong_phase_ignored_witness :
  let w := start defaultConfig noDelay (initialWorld 0) in
  phase (hook w) <> options /\ phase (hook w) <> result /\
  startOptionsCountdown defaultConfig None w = w /\
  startResultTimeout defaultConfig w = w.
Proof.
  pose proof (wrong_phase_ignored defaultConfig
                (start defaultConfig noDelay (initialWorld 0))) as [H1 H2].
  cbv zeta. split; [discriminate|]. split; [discriminate|].
  split; [apply H1; discriminate|apply H2; discriminate].
Defined.

(** ** Countdown ticks *)

Section Ticks.

Variable config : ExerciseFlowConfig.
Variable onComplete : bool.

Lemma tick_running w h st dur cb :
  counting w h st dur cb -> now w - st < dur ->
  tick config onComplete w =
  on_hook (set_remainingMs (dur - (now w - st))) w.
Proof.
  intros [Hr Hl] Hlt. unfold tick, fire. rewrite Hr, Hl.
  unfold intervalCallback. cbv zeta.
  rewrite Z.max_r by lia.
  destruct (Z.leb_spec (dur - (now w - st)) 0); [lia|reflexivity].
Qed.

Lemma tick_due w h st dur cb :
  counting w h st dur cb -> dur <= now w - st ->
  tick config onComplete w =
  runOnEnd config cb
    (on_hook (set_timerRef None)
       (clearInterval h (on_hook (set_remainingMs 0) w))).
Proof.
  intros [Hr Hl] Hle. unfold tick, fire. rewrite Hr, Hl.
  unfold intervalCallback. cbv zeta.
  rewrite Z.max_l by lia. simpl (0 <=? 0).
  change (timerRef (hook (on_hook (set_remainingMs 0) w)))
    with (timerRef (hook w)).
  now rewrite Hr.
Qed.

Lemma counting_advance d w h st dur cb :
  counting w h st dur cb -> counting (advance d w) h st dur cb.
Proof. intros [Hr Hl]. split; assumption. Qed.

(** Ticks that come before the end only refresh [remainingMs]. *)
Lemma ticks_running ds : forall w h st dur cb,
  counting w h st dur cb -> Forall (fun d => 0 <= d) ds ->
  ds = [] \/ now w + total ds - st < dur ->
  let w' := ticks config onComplete ds w in
  counting w' h st dur cb /\ now w' = now w + total ds /\
  phase (hook w') = phase (hook w) /\
  selectedIndex (hook w') = selectedIndex (hook w) /\
  pendingCountdownRef (hook w') = pendingCountdownRef (hook w) /\
  trace w' = trace w /\
  (ds <> [] -> remainingMs (hook w') = dur - (now w' - st)).
Proof.
  induction ds as [|d ds IH]; intros w h st dur cb Hc Hpos Hlt w'.
  - subst w'. simpl. repeat split; try apply Hc; try lia. congruence.
  - subst w'. simpl.
    destruct Hlt as [Hlt|Hlt]; [discriminate|].
    inversion Hpos as [|? ? Hd Hds]; subst.
    assert (Ht : 0 <= total ds).
    { clear -Hds. induction Hds; simpl; lia. }
    simpl in Hlt.
    assert (E : waitTick config onComplete d w =
                on_hook (set_remainingMs (dur - (now w + d - st)))
                  (advance d w)).
    { unfold waitTick.
      rewrite (tick_running _ h st dur cb).
      - simpl. now rewrite Z.max_r by lia.
      - now apply counting_advance.
      - simpl. rewrite Z.max_r by lia. lia. }
    rewrite E.
    set (w1 := on_hook _ (advance d w)).
    assert (Hc1 : counting w1 h st dur cb) by (split; apply Hc).
    assert (Hn1 : now w1 = now w + d).
    { subst w1. simpl. now rewrite Z.max_r by lia. }
    destruct (IH w1 h st dur cb Hc1 Hds) as (A & B & C & D & E' & F & G).
    { right. rewrite Hn1. lia. }
    repeat split; try apply A.
    + rewrite B, Hn1. lia.
    + rewrite C. reflexivity.
    + rewrite D. reflexivity.
    + rewrite E'. reflexivity.
    + rewrite F. reflexivity.
    + intros _. destruct ds as [|d' ds'].
      * simpl. subst w1. simpl. rewrite Z.max_r by lia. lia.
      * apply G. discriminate.
Qed.

Lemma startCountdown_counting d cb w :
  counting (startCountdown d cb w) (nextHandle w) (now w) d cb.
Proof.
  unfold startCountdown, setInterval, addTimer, clearInterval.
  destruct (timerRef (hook w)); split; simpl;
    try reflexivity; apply lookup_insert_eq.
Qed.

Lemma startCountdown_view d cb w :
  let w' := startCountdown d cb w in
  phase (hook w') = phase (hook w) /\
  selectedIndex (hook w') = selectedIndex (hook w) /\
  remainingMs (hook w') = d /\
  pendingCountdownRef (hook w') = pendingCountdownRef (hook w) /\
  optionsStartTimeRef (hook w') = optionsStartTimeRef (hook w) /\
  now w' = now w /\ trace w' = trace w.
Proof.
  unfold startCountdown, setInterval, addTimer, clearInterval.
  destruct (timerRef (hook w)); repeat split.
Qed.

Lemma clearTimer_frame w :
  phase (hook (clearTimer w)) = phase (hook w) /\
  selectedIndex (hook (clearTimer w)) = selectedIndex (hook w) /\
  now (clearTimer w) = now w /\ nextHandle (clearTimer w) = nextHandle w /\
  trace (clearTimer w) = trace w.
Proof.
  destruct w as [[? ? ? ? tr rt ? ? ? ? ? ? ? ?] ? ? ? ?].
  destruct tr, rt; repeat split.
Qed.

(** [start()] without [delayQuestionCountdown]. *)
Lemma start_counting o w :
  delayQuestionCountdown o = false ->
  let w' := start config o w in
  counting w' (nextHandle w) (now w)
    (questionDuration (finalConfig config))
    (questionOnEnd (delayOptionsCountdown o)) /\
  phase (hook w') = question /\ selectedIndex (hook w') = None /\
  now w' = now w.
Proof.
  intros Ho. unfold start. rewrite Ho. cbv zeta.
  set (w0 := emit_if _ _ _).
  assert (E : nextHandle w0 = nextHandle w /\ now w0 = now w /\
              phase (hook w0) = question /\ selectedIndex (hook w0) = None).
  { subst w0. destruct (clearTimer_frame w) as (_ & _ & A & B & _).
    destruct (onQuestionShown (finalConfig config)); simpl; auto. }
  destruct E as (E1 & E2 & E3 & E4).
  pose proof (startCountdown_counting
                (questionDuration (finalConfig config))
                (questionOnEnd (delayOptionsCountdown o)) w0) as Hc.
  rewrite E1, E2 in Hc.
  destruct (startCountdown_view
              (questionDuration (finalConfig config))
              (questionOnEnd (delayOptionsCountdown o)) w0)
    as (A & B & _ & _ & _ & C & _).
  repeat split; try apply Hc; congruence.
Qed.

(** The end of the question countdown. *)
Lemma questionOnEnd_spec dO w :
  let w' := runOnEnd config (questionOnEnd dO) w in
  phase (hook w') = options /\
  selectedIndex (hook w') = selectedIndex (hook w) /\
  optionsStartTimeRef (hook w') = Some (now w) /\
  now w' = now w /\
  (dO = false ->
   counting w' (nextHandle w) (now w)
     (optionsDuration (finalConfig config)) optionsTimeout) /\
  (dO = true ->
   timerRef (hook w') = timerRef (hook w) /\ timers w' = timers w).
Proof.
  unfold runOnEnd. cbv zeta. set (w0 := emit_if _ _ _).
  assert (E : nextHandle w0 = nextHandle w /\ now w0 = now w /\
              phase (hook w0) = options /\
              selectedIndex (hook w0) = selectedIndex (hook w) /\
              optionsStartTimeRef (hook w0) = Some (now w) /\
              timerRef (hook w0) = timerRef (hook w) /\
              timers w0 = timers w).
  { subst w0. destruct (onAnswerPhaseStarted (finalConfig config));
      simpl; repeat split. }
  destruct E as (E1 & E2 & E3 & E4 & E5 & E6 & E7).
  destruct dO; cbn [negb].
  - do 4 (split; [assumption|]).
    split; [discriminate|intros _; split; assumption].
  - pose proof (startCountdown_counting
                  (optionsDuration (finalConfig config)) optionsTimeout w0)
      as Hc.
    rewrite E1, E2 in Hc.
    destruct (startCountdown_view
                (optionsDuration (finalConfig config)) optionsTimeout w0)
      as (A & B & _ & _ & C & D & _).
    do 4 (split; [congruence|]).
    split; [intros _; exact Hc|discriminate].
Qed.

End Ticks.

(** ** Timeout without an answer (C5) *)

Section Timeout.

Variable config : ExerciseFlowConfig.
Variable onComplete : bool.

Lemma now_advance d w : 0 <= d -> now (advance d w) = now w + d.
Proof. intros Hd. simpl. now rewrite Z.max_r. Qed.

Lemma total_nonneg ds : Forall (fun d => 0 <= d) ds -> 0 <= total ds.
Proof. induction 1; simpl; lia. Qed.

(** C5: after [start()] the ticks that come before [questionDuration] has
    elapsed leave the phase at [question]; the first tick at or after it
    enters [options]; the ticks that come before [optionsDuration] has
    elapsed since then leave the phase at [options] with no answer; the
    first tick at or after it enters [result] with [selectedIndex = -1]. *)
Theorem timeout_yields_minus_one (w : World)
  (early1 : list Z) (d1 : Z) (early2 : list Z) (d2 : Z) :
  before (questionDuration (finalConfig config)) early1 ->
  0 <= d1 -> questionDuration (finalConfig config) <= total early1 + d1 ->
  before (optionsDuration (finalConfig config)) early2 ->
  0 <= d2 -> optionsDuration (finalConfig config) <= total early2 + d2 ->
  let w1 := start config noDelay w in
  let w2 := ticks config onComplete early1 w1 in
  let w3 := waitTick config onComplete d1 w2 in
  let w4 := ticks config onComplete early2 w3 in
  let w5 := waitTick config onComplete d2 w4 in
  phase (hook w1) = question /\ phase (hook w2) = question /\
  phase (hook w3) = options /\ phase (hook w4) = options /\
  selectedIndex (hook w4) = None /\
  phase (hook w5) = result /\ selectedIndex (hook w5) = Some (-1).
Proof.
  intros [Hp1 Hb1] Hd1 Hq [Hp2 Hb2] Hd2 Ho w1 w2 w3 w4 w5.
  destruct (start_counting config noDelay w eq_refl)
    as (Hc1 & Hph1 & Hs1 & Hn1).
  fold w1 in Hc1, Hph1, Hs1, Hn1.
  change (delayOptionsCountdown noDelay) with false in Hc1.
  destruct (ticks_running config onComplete early1 w1 _ _ _ _ Hc1 Hp1)
    as (Hc2 & Hn2 & Hph2 & Hs2 & _).
  { destruct Hb1 as [Hb1|Hb1]; [now left|right; lia]. }
  fold w2 in Hc2, Hn2, Hph2, Hs2.
  assert (E3 : w3 = runOnEnd config (questionOnEnd false)
                 (on_hook (set_timerRef None)
                    (clearInterval (nextHandle w)
                       (on_hook (set_remainingMs 0) (advance d1 w2))))).
  { subst w3. unfold waitTick.
    apply (tick_due config onComplete _ _ (now w)
             (questionDuration (finalConfig config))).
    - now apply counting_advance.
    - rewrite now_advance by lia. lia. }
  match type of E3 with _ = runOnEnd _ _ ?x => set (c3 := x) in E3 end.
  destruct (questionOnEnd_spec config false c3)
    as (Hph3 & Hs3 & _ & Hn3 & Hc3 & _).
  rewrite <- E3 in Hph3, Hs3, Hn3, Hc3. specialize (Hc3 eq_refl).
  assert (Hs3' : selectedIndex (hook w3) = None).
  { rewrite Hs3. subst c3. simpl. congruence. }
  destruct (ticks_running config onComplete early2 w3 _ _ _ _ Hc3 Hp2)
    as (Hc4 & Hn4 & Hph4 & Hs4 & _).
  { destruct Hb2 as [Hb2|Hb2]; [now left|right; lia]. }
  fold w4 in Hc4, Hn4, Hph4, Hs4.
  assert (E5 : w5 = runOnEnd config optionsTimeout
                 (on_hook (set_timerRef None)
                    (clearInterval (nextHandle c3)
                       (on_hook (set_remainingMs 0) (advance d2 w4))))).
  { subst w5. unfold waitTick.
    apply (tick_due config onComplete _ _ (now c3)
             (optionsDuration (finalConfig config))).
    - now apply counting_advance.
    - rewrite now_advance by lia. lia. }
  simpl in E5.
  match type of E5 with _ = enterResult _ _ _ ?x =>
    destruct (enterResult_view config (-1) false x) as [Hph5 Hs5] end.
  rewrite <- E5 in Hph5, Hs5.
  repeat split; congruence.
Qed.

End Timeout.

Lemma timeout_yields_minus_one_witness :
  let w1 := start defaultConfig noDelay (initialWorld 0) in
  let w2 := ticks defaultConfig true [50; 50; 850] w1 in
  let w3 := waitTick defaultConfig true 50 w2 in
  let w4 := ticks defaultConfig true [50; 3900] w3 in
  let w5 := waitTick defaultConfig true 50 w4 in
  before 1000 [50; 50; 850] /\ before 4000 [50; 3900] /\
  phase (hook w2) = question /\ phase (hook w3) = options /\
  phase (hook w4) = options /\ selectedIndex (hook w4) = None /\
  phase (hook w5) = result /\ selectedIndex (hook w5) = Some (-1).
Proof.
  assert (B1 : before 1000 [50; 50; 850]).
  { split; [repeat constructor; lia|right; reflexivity]. }
  assert (B2 : before 4000 [50; 3900]).
  { split; [repeat constructor; lia|right; reflexivity]. }
  pose proof (timeout_yields_minus_one defaultConfig true (initialWorld 0)
                [50; 50; 850] 50 [50; 3900] 50
                B1 ltac:(lia) ltac:(simpl; lia)
                B2 ltac:(lia) ltac:(simpl; lia))
    as (_ & H2 & H3 & H4 & H5 & H6 & H7).
  cbv zeta. split; [exact B1|]. split; [exact B2|].
  repeat split; assumption.
Defined.

(** ** Deferred question countdown (C7) *)

Section Deferred.

Variable config : ExerciseFlowConfig.
Variable onComplete : bool.

(** Without a pending interval the runtime cannot reach the hook. *)
Lemma runtime_step_idle c w :
  runtime_call c = true -> vacant is_interval w ->
  hook (step config onComplete c w) = hook w /\
  vacant is_interval (step config onComplete c w).
Proof.
  intros Hc Hv. destruct c; try discriminate Hc; simpl.
  - split; [reflexivity|]. now apply vacant_advance.
  - unfold fire, resultTimeoutCallback.
    destruct (timers w !! h) as [[p st d cb|due]|] eqn:E; [| |now split].
    + now pose proof (Hv _ _ E).
    + case_match; [|now split].
      split.
      * now destruct onComplete.
      * now apply vacant_emit_if, vacant_delete.
Qed.

Lemma runtime_run_idle l : forall w,
  forallb runtime_call l = true -> vacant is_interval w ->
  hook (run config onComplete l w) = hook w /\
  vacant is_interval (run config onComplete l w).
Proof.
  induction l as [|c l IH]; intros w Hl Hv; [now split|].
  simpl in Hl. apply andb_prop in Hl as [Hc Hl].
  destruct (runtime_step_idle c w Hc Hv) as [Hh Hv'].
  destruct (IH _ Hl Hv') as [Hh2 Hv2]. simpl.
  split; [congruence|assumption].
Qed.

Lemma start_deferred o w :
  delayQuestionCountdown o = true ->
  intervals_tracked w ->
  let w' := start config o w in
  phase (hook w') = question /\
  remainingMs (hook w') = questionDuration (finalConfig config) /\
  pendingCountdownRef (hook w') =
    Some (questionDuration (finalConfig config),
          questionOnEnd (delayOptionsCountdown o)) /\
  timerRef (hook w') = None /\
  vacant is_interval w'.
Proof.
  intros Ho Hw. unfold start. rewrite Ho. cbv zeta.
  assert (Hv : vacant is_interval (clearTimer w))
    by now apply clearTimer_vacant_intervals.
  destruct (onQuestionShown (finalConfig config)); cbn [emit_if].
  all: split; [reflexivity|]; split; [reflexivity|]; split; [reflexivity|].
  all: split;
    [|repeat first [apply vacant_on_hook | apply vacant_emit]; exact Hv].
  all: destruct w as [[? ? ? ? tr rt ? ? ? ? ? ? ? ?] ? ? ? ?].
  all: destruct tr, rt; reflexivity.
Qed.

Lemma startQuestionCountdown_idle w :
  pendingCountdownRef (hook w) = None -> startQuestionCountdown w = w.
Proof. intros H. unfold startQuestionCountdown. now rewrite H. Qed.

(** C7: after any history, [start({delayQuestionCountdown: true})] leaves
    phase [question], [remainingMs = questionDuration] and the descriptor
    pending, and whatever the runtime does afterwards leaves the hook as
    it is; [startQuestionCountdown] then clears the descriptor and starts
    the countdown of [questionDuration] at that instant: a tick before its
    end shows the time left, the tick at or after its end enters
    [options]; with no descriptor pending [startQuestionCountdown] returns
    the world unchanged. *)
Theorem deferred_question_countdown (t0 : Z) (l : list call) (dO : bool) :
  let qd := questionDuration (finalConfig config) in
  let w := run config onComplete l (initialWorld t0) in
  let w1 :=
    start config
      {| delayOptionsCountdown := dO; delayQuestionCountdown := true |} w in
  phase (hook w1) = question /\ remainingMs (hook w1) = qd /\
  pendingCountdownRef (hook w1) = Some (qd, questionOnEnd dO) /\
  (forall env,
      forallb runtime_call env = true ->
      let w2 := run config onComplete env w1 in
      hook w2 = hook w1 /\
      let w3 := startQuestionCountdown w2 in
      pendingCountdownRef (hook w3) = None /\
      phase (hook w3) = question /\ remainingMs (hook w3) = qd /\
      counting w3 (nextHandle w2) (now w2) qd (questionOnEnd dO) /\
      forall d, 0 <= d ->
        let w4 := waitTick config onComplete d w3 in
        (d < qd -> phase (hook w4) = question /\
                   remainingMs (hook w4) = qd - d) /\
        (qd <= d -> phase (hook w4) = options)) /\
  (forall w', pendingCountdownRef (hook w') = None ->
              startQuestionCountdown w' = w').
Proof.
  intros qd w w1.
  assert (Hw : intervals_tracked w).
  { apply run_intervals, vacant_tracked, initialWorld_vacant. }
  destruct (start_deferred
              {| delayOptionsCountdown := dO; delayQuestionCountdown := true |}
              w eq_refl Hw) as (Hp & Hr & Hd & _ & Hv).
  fold w1 in Hp, Hr, Hd, Hv. cbn [delayOptionsCountdown] in Hd.
  split; [exact Hp|]. split; [exact Hr|]. split; [exact Hd|].
  split; [|apply startQuestionCountdown_idle].
  intros env Henv w2.
  destruct (runtime_run_idle env w1 Henv Hv) as [Hh _]. fold w2 in Hh.
  split; [exact Hh|]. intros w3.
  assert (E3 : w3 = startCountdown qd (questionOnEnd dO)
                 (on_hook (set_isPaused false)
                    (on_hook (set_pendingCountdownRef None) w2))).
  { subst w3. unfold startQuestionCountdown. now rewrite Hh, Hd. }
  match type of E3 with _ = startCountdown _ _ ?x => set (c3 := x) in E3 end.
  pose proof (startCountdown_counting qd (questionOnEnd dO) c3) as Hc.
  destruct (startCountdown_view qd (questionOnEnd dO) c3)
    as (A & _ & B & C & _ & D & _).
  rewrite <- E3 in Hc, A, B, C, D.
  change (nextHandle c3) with (nextHandle w2) in Hc.
  change (now c3) with (now w2) in Hc, D.
  split; [exact C|]. split; [rewrite A; simpl; now rewrite Hh|].
  split; [exact B|]. split; [exact Hc|].
  intros d Hd0 w4. split.
  - intros Hlt. subst w4. unfold waitTick.
    rewrite (tick_running config onComplete _ _ _ _ _
               (counting_advance d _ _ _ _ _ Hc)).
    + simpl. rewrite D, Z.max_r by lia. split; [|lia].
      rewrite A. simpl. now rewrite Hh.
    + rewrite now_advance by lia. lia.
  - intros Hle. subst w4. unfold waitTick.
    rewrite (tick_due config onComplete _ _ _ _ _
               (counting_advance d _ _ _ _ _ Hc)).
    + now destruct (questionOnEnd_spec config dO
        (on_hook (set_timerRef None)
           (clearInterval (nextHandle w2)
              (on_hook (set_remainingMs 0) (advance d w3))))) as (-> & _).
    + rewrite now_advance by lia. lia.
Qed.

End Deferred.

Lemma deferred_question_countdown_witness :
  let w1 := start defaultConfig delayQuestion (initialWorld 0) in
  let w2 := run defaultConfig true [Advance 5000] w1 in
  let w3 := startQuestionCountdown w2 in
  forallb runtime_call [Advance 5000] = true /\ 0 <= 400 /\ 400 < 1000 /\
  hook w2 = hook w1 /\
  phase (hook (waitTick defaultConfig true 400 w3)) = question /\
  remainingMs (hook (waitTick defaultConfig true 400 w3)) = 1000 - 400.
Proof.
  pose proof (deferred_question_countdown defaultConfig true 0 [] false)
    as (_ & _ & _ & H & _).
  cbv zeta in H.
  destruct (H [Advance 5000] eq_refl) as (Hh & _ & _ & _ & _ & Ht).
  destruct (Ht 400 ltac:(lia)) as [Hq _].
  cbv zeta. split; [reflexivity|]. split; [lia|]. split; [lia|].
  split; [exact Hh|]. apply Hq. reflexivity.
Defined.

(** ** The displayed time and the end callback of a running countdown *)

Section Synced.

Variable config : ExerciseFlowConfig.
Variable onComplete : bool.











Lemma pause_vacant w :
  intervals_tracked w -> vacant is_interval (pause config w).
Proof.
  intros Hw. unfold pause. cbv zeta.
  set (w1 := match timerRef (hook w) with
             | Some h => on_hook (set_timerRef None) (clearInterval h w)
             | None => w
             end).
  assert (Hv : vacant is_interval w1).
  { subst w1. destruct (timerRef (hook w)) eqn:E.
    - apply vacant_on_hook. eapply tracked_release; eauto.
    - eapply tracked_None_vacant; eauto. }
  apply vacant_on_hook.
  set (w3 := on_hook _ (on_hook _ w1)).
  assert (H3 : vacant is_interval w3) by now do 2 apply vacant_on_hook.
  destruct (resultTimeoutRef (hook w3)); [|exact H3].
  now do 2 apply vacant_on_hook; apply vacant_delete.
Qed.





End Synced.

(** ** Pause and resume (C6) *)

Section PauseResume.

Variable config : ExerciseFlowConfig.
Variable onComplete : bool.

Lemma pause_spec w :
  let w1 := pause config w in
  timers w1 =
    cancel (resultTimeoutRef (hook w)) (cancel (timerRef (hook w)) (timers w)) /\
  timerRef (hook w1) = None /\ resultTimeoutRef (hook w1) = None /\
  pausedRemainingRef (hook w1) = remainingMs (hook w) /\
  pausedOnEndRef (hook w1) = currentOnEndRef (hook w) /\
  pausedResultRemainingRef (hook w1) =
    match resultTimeoutRef (hook w) with
    | Some _ =>
        Z.max 0 (resultDuration (finalConfig config)
                 - (now w - resultStartTimeRef (hook w)))
    | None => pausedResultRemainingRef (hook w)
    end /\
  phase (hook w1) = phase (hook w) /\ isPaused (hook w1) = true /\
  now w1 = now w /\ nextHandle w1 = nextHandle w /\ trace w1 = trace w.
Proof.
  destruct w as [[? ? ? ? tr rt ? ? ? ? ? ? ? ?] ? ? ? ?].
  destruct tr, rt; repeat split.
Qed.


Lemma resume_result w :
  phase (hook w) = result -> 0 < pausedResultRemainingRef (hook w) ->
  resume config w =
  on_hook (set_pausedResultRemainingRef 0)
    (scheduleResultTimeout (pausedResultRemainingRef (hook w))
       (on_hook (set_resultStartTimeRef (now w))
          (on_hook (set_isPaused false) w))).
Proof.
  intros Hp Hr. unfold resume. cbv zeta.
  change (phase (hook (on_hook (set_isPaused false) w)))
    with (phase (hook w)).
  change (pausedResultRemainingRef (hook (on_hook (set_isPaused false) w)))
    with (pausedResultRemainingRef (hook w)).
  rewrite (bool_decide_eq_true_2 _ Hp).
  destruct (Z.ltb_spec 0 (pausedResultRemainingRef (hook w))); [|lia].
  reflexivity.
Qed.




End PauseResume.



(** ** Invariants of the hook along every history *)

Section Sane.

Variable config : ExerciseFlowConfig.
Variable onComplete : bool.

Lemma sane_frame f w :
  phase (f (hook w)) = phase (hook w) ->
  selectedIndex (f (hook w)) = selectedIndex (hook w) ->
  remainingMs (f (hook w)) = remainingMs (hook w) ->
  pendingCountdownRef (f (hook w)) = pendingCountdownRef (hook w) ->
  optionsStartTimeRef (f (hook w)) = optionsStartTimeRef (hook w) ->
  responseTimeMsRef (f (hook w)) = responseTimeMsRef (hook w) ->
  sane config w -> sane config (on_hook f w).
Proof.
  intros H1 H2 H3 H4 H5 H6.
  unfold sane, display_nonneg, selection_consistent, times_ordered;
    simpl.
  now rewrite H1, H2, H3, H4, H5, H6.
Qed.

Lemma sane_set_timers m w : sane config w -> sane config (set_timers m w).
Proof. exact (fun H => H). Qed.

Lemma sane_emit e w : sane config w -> sane config (emit e w).
Proof. exact (fun H => H). Qed.

Lemma sane_emit_if b e w : sane config w -> sane config (emit_if b e w).
Proof. destruct b; simpl; auto using sane_emit. Qed.

Lemma sane_addTimer t w : sane config w -> sane config (addTimer t w).2.
Proof. exact (fun H => H). Qed.

Lemma sane_advance d w : sane config w -> sane config (advance d w).
Proof.
  intros (A & B & C & D). split; [exact A|]. split; [exact B|].
  split; [|exact D].
  intros t Ht. specialize (C _ Ht). simpl. lia.
Qed.

Lemma sane_clearTimer w : sane config w -> sane config (clearTimer w).
Proof.
  intros Hw. unfold clearTimer, clearInterval, clearTimeout. cbv zeta.
  set (w1 := match timerRef (hook w) with
             | Some h => on_hook (set_timerRef None) (set_timers _ w)
             | None => w
             end).
  assert (H1 : sane config w1).
  { subst w1. destruct (timerRef (hook w)); [|exact Hw].
    now apply sane_frame, sane_set_timers. }
  destruct (resultTimeoutRef (hook w1)); [|exact H1].
  now apply sane_frame, sane_set_timers.
Qed.

Lemma sane_set_remaining d w :
  (durations_nonneg config -> 0 <= d) ->
  sane config w -> sane config (on_hook (set_remainingMs d) w).
Proof.
  intros Hd (A & B & C). split; [|split; assumption].
  intros Hc. split; [exact (Hd Hc)|exact (proj2 (A Hc))].
Qed.

Lemma sane_startCountdown d cb w :
  (durations_nonneg config -> 0 <= d) ->
  sane config w -> sane config (startCountdown d cb w).
Proof.
  intros Hd Hw. unfold startCountdown, setInterval, clearInterval. cbv zeta.
  apply sane_frame; [reflexivity..|]. apply sane_addTimer.
  apply sane_set_remaining; [exact Hd|].
  apply sane_frame; [reflexivity..|].
  destruct (timerRef (hook w)); [|exact Hw]. now apply sane_set_timers.
Qed.

Lemma sane_scheduleResultTimeout d w :
  sane config w -> sane config (scheduleResultTimeout d w).
Proof.
  intros Hw. unfold scheduleResultTimeout, setTimeout.
  now apply sane_frame, sane_addTimer.
Qed.

Lemma sane_recordResponseTime w : sane config w -> sane config (recordResponseTime w).
Proof.
  intros Hw. unfold recordResponseTime.
  destruct (optionsStartTimeRef (hook w)) as [t0|] eqn:Eo;
    [destruct (responseTimeMsRef (hook w)) as [r|] eqn:Er|];
    [exact Hw| |exact Hw].
  destruct Hw as (A & B & C & D). split; [exact A|]. split; [exact B|].
  split; [exact C|]. simpl. intros r Hr. injection Hr as <-.
  specialize (C _ Eo). lia.
Qed.

Lemma sane_answer i w :
  sane config w ->
  sane config (on_hook (set_phase result) (on_hook (set_selectedIndex (Some i)) w)).
Proof.
  intros (A & _ & C). split; [exact A|]. split; [|exact C].
  split; simpl; [intros [H|H]; discriminate H|discriminate].
Qed.

Lemma sane_question w :
  sane config w ->
  sane config (on_hook (set_phase question) (on_hook (set_selectedIndex None) w)).
Proof.
  intros (A & _ & C). split; [exact A|]. split; [|exact C].
  split; simpl; [reflexivity|discriminate].
Qed.

Lemma sane_phase p w :
  p = options \/ p = processing -> sane config w -> sane config (on_hook (set_phase p) w).
Proof.
  intros Hp (A & _ & C). split; [exact A|]. split; [|exact C].
  split; simpl; destruct Hp as [-> | ->];
    try discriminate; intros [H|H]; discriminate H.
Qed.

Lemma sane_options_start w :
  sane config w -> sane config (on_hook (set_optionsStartTimeRef (Some (now w))) w).
Proof.
  intros (A & B & C & D). split; [exact A|]. split; [exact B|].
  split; [|exact D]. simpl. intros t Ht. injection Ht as <-. lia.
Qed.

Lemma sane_set_pending p w :
  (durations_nonneg config -> forall d cb, p = Some (d, cb) -> 0 <= d) ->
  sane config w -> sane config (on_hook (set_pendingCountdownRef p) w).
Proof.
  intros Hp (A & B & C). split; [|split; assumption].
  intros Hc. split; [exact (proj1 (A Hc))|exact (Hp Hc)].
Qed.

Lemma sane_enterResult i skip w :
  sane config w -> sane config (enterResult config i skip w).
Proof.
  intros Hw. unfold enterResult. cbv zeta.
  assert (H1 : sane config
    (recordResponseTime
       (on_hook (set_phase result)
          (on_hook (set_selectedIndex (Some i)) (clearTimer w))))).
  { now apply sane_recordResponseTime, sane_answer, sane_clearTimer. }
  destruct (negb skip); [|exact H1].
  now apply sane_scheduleResultTimeout, sane_frame.
Qed.

Lemma sane_runOnEnd cb w : sane config w -> sane config (runOnEnd config cb w).
Proof.
  intros Hw. destruct cb as [dO| |tag]; unfold runOnEnd.
  - cbv zeta.
    assert (H1 : sane config
      (emit_if (onAnswerPhaseStarted (finalConfig config)) AnswerPhaseStarted
         (on_hook
            (set_optionsStartTimeRef
               (Some (now (on_hook (set_phase options) w))))
            (on_hook (set_phase options) w)))).
    { apply sane_emit_if.
      apply (sane_options_start (on_hook (set_phase options) w)).
      apply sane_phase; [now left|exact Hw]. }
    destruct (negb dO); [|exact H1].
    apply sane_startCountdown; [now intros [_ ?]|exact H1].
  - now apply sane_enterResult.
  - now apply sane_emit.
Qed.

Lemma sane_fire h w : sane config w -> sane config (fire config onComplete h w).
Proof.
  intros Hw. unfold fire, intervalCallback, resultTimeoutCallback.
  destruct (timers w !! h) as [[p st d cb|due]|]; [| |exact Hw].
  - cbv zeta.
    set (w1 := on_hook (set_remainingMs (Z.max 0 (d - (now w - st)))) w).
    assert (H1 : sane config w1) by (apply sane_set_remaining; [lia|exact Hw]).
    case_match; [|exact H1]. apply sane_runOnEnd.
    destruct (timerRef (hook w1)); [|exact H1].
    now apply sane_frame, sane_set_timers.
  - case_match; [|exact Hw]. now apply sane_emit_if, sane_set_timers.
Qed.

Lemma sane_pause w : sane config w -> sane config (pause config w).
Proof.
  intros Hw. unfold pause, clearInterval, clearTimeout. cbv zeta.
  set (w1 := match timerRef (hook w) with
             | Some h => on_hook (set_timerRef None) (set_timers _ w)
             | None => w
             end).
  assert (H1 : sane config w1).
  { subst w1. destruct (timerRef (hook w)); [|exact Hw].
    now apply sane_frame, sane_set_timers. }
  apply sane_frame; [reflexivity..|].
  set (w3 := on_hook _ (on_hook _ w1)).
  assert (H3 : sane config w3).
  { subst w3. now do 2 (apply sane_frame; [reflexivity..|]). }
  destruct (resultTimeoutRef (hook w3)); [|exact H3].
  do 2 (apply sane_frame; [reflexivity..|]). now apply sane_set_timers.
Qed.

Lemma sane_resume w : sane config w -> sane config (resume config w).
Proof.
  intros Hw. unfold resume. cbv zeta.
  set (w1 := on_hook (set_isPaused false) w).
  assert (H1 : sane config w1) by now apply sane_frame.
  case_match.
  - apply sane_frame; [reflexivity..|].
    now apply sane_scheduleResultTimeout, sane_frame.
  - apply sane_frame; [reflexivity..|].
    destruct (pausedOnEndRef (hook w1)); [|exact H1].
    destruct (Z.ltb_spec 0 (pausedRemainingRef (hook w1))).
    + apply sane_startCountdown; [lia|exact H1].
    + now apply sane_runOnEnd.
Qed.

Lemma sane_start o w : sane config w -> sane config (start config o w).
Proof.
  intros Hw. unfold start. cbv zeta.
  assert (H1 : sane config
    (emit_if (onQuestionShown (finalConfig config)) QuestionShown
       (on_hook (set_phase question)
          (on_hook (set_selectedIndex None) (clearTimer w))))).
  { now apply sane_emit_if, sane_question, sane_clearTimer. }
  destruct (delayQuestionCountdown o).
  - apply sane_frame; [reflexivity..|]. apply sane_set_pending.
    + now intros [? _] d cb [= <- _].
    + apply sane_set_remaining; [now intros [? _]|exact H1].
  - apply sane_startCountdown; [now intros [? _]|exact H1].
Qed.

Lemma sane_reset w : sane config w -> sane config (reset w).
Proof.
  intros _. unfold sane, display_nonneg, selection_consistent,
    times_ordered. rewrite reset_hook. simpl.
  repeat split; try discriminate; lia.
Qed.

Lemma sane_step c w : sane config w -> sane config (step config onComplete c w).
Proof.
  intros Hw. destruct c; simpl.
  - now apply sane_start.
  - unfold startOptionsCountdown. case_decide; [|exact Hw].
    apply sane_startCountdown; [now intros [_ ?]|].
    now apply sane_options_start.
  - unfold startQuestionCountdown.
    destruct (pendingCountdownRef (hook w)) as [[d cb]|] eqn:E; [|exact Hw].
    apply sane_startCountdown.
    + intros Hc. destruct Hw as (A & _). exact (proj2 (A Hc) _ _ E).
    + apply sane_frame; [reflexivity..|].
      apply sane_set_pending; [discriminate|exact Hw].
  - unfold select. case_match; [exact Hw|]. now apply sane_enterResult.
  - unfold updateSelectedIndex. case_decide as Hp; [|exact Hw].
    destruct Hw as (A & B & C). split; [exact A|]. split; [|exact C].
    split; simpl; [rewrite Hp; intros [H|H]; discriminate H|discriminate].
  - unfold enterProcessing. cbv zeta. apply sane_recordResponseTime.
    apply sane_phase; [now right|]. now apply sane_clearTimer.
  - now apply sane_enterResult.
  - unfold startResultTimeout, clearTimeout. case_decide; [|exact Hw].
    cbv zeta. apply sane_scheduleResultTimeout.
    destruct (resultTimeoutRef (hook w)); [|exact Hw].
    now apply sane_set_timers.
  - now apply sane_pause.
  - now apply sane_resume.
  - now apply sane_reset.
  - now apply sane_clearTimer.
  - now apply sane_advance.
  - now apply sane_fire.
Qed.

Lemma sane_initial t0 : sane config (initialWorld t0).
Proof.
  unfold sane, display_nonneg, selection_consistent,
    times_ordered. simpl.
  repeat split; try discriminate; lia.
Qed.

Lemma sane_run l : forall w, sane config w -> sane config (run config onComplete l w).
Proof.
  induction l as [|c l IH]; intros w Hw; [exact Hw|].
  apply IH, sane_step, Hw.
Qed.

(** X1: with non-negative question and options durations, along every
    history the displayed [remainingMs] is never negative. *)
Theorem remainingMs_never_negative (t0 : Z) (l : list call) :
  0 <= questionDuration (finalConfig config) ->
  0 <= optionsDuration (finalConfig config) ->
  0 <= remainingMs (hook (run config onComplete l (initialWorld t0))).
Proof.
  intros Hq Ho. destruct (sane_run l _ (sane_initial t0)) as (A & _).
  exact (proj1 (A (conj Hq Ho))).
Qed.



End Sane.

Lemma remainingMs_never_negative_witness :
  0 <= questionDuration (finalConfig defaultConfig) /\
  0 <= optionsDuration (finalConfig defaultConfig) /\
  0 <= remainingMs
         (hook (run defaultConfig true staleDescriptorRun (initialWorld 0))).
Proof.
  split; [simpl; lia|]. split; [simpl; lia|].
  apply (remainingMs_never_negative defaultConfig true 0 staleDescriptorRun);
    simpl; lia.
Defined.



(** ** Result timeouts along histories without [resume] *)

Section ResultTimeouts.

Variable config : ExerciseFlowConfig.
Variable onComplete : bool.

Lemma startResultTimeout_timeouts w :
  timeouts_tracked w -> timeouts_tracked (startResultTimeout config w).
Proof.
  intros Hw. unfold startResultTimeout. case_decide; [|exact Hw].
  cbv zeta. apply scheduleResultTimeout_vacant.
  destruct (resultTimeoutRef (hook w)) eqn:E.
  - eapply tracked_release; eauto.
  - eapply tracked_None_vacant; eauto.
Qed.

Lemma pause_vacant_timeouts w :
  timeouts_tracked w -> vacant is_timeout (pause config w).
Proof.
  intros Hw. unfold pause. cbv zeta.
  set (w1 := match timerRef (hook w) with
             | Some h => on_hook (set_timerRef None) (clearInterval h w)
             | None => w
             end).
  assert (H1 : timeouts_tracked w1).
  { subst w1. destruct (timerRef (hook w)); [|exact Hw].
    apply tracked_on_hook; [reflexivity|]. now apply tracked_delete. }
  apply vacant_on_hook.
  set (w3 := on_hook _ (on_hook _ w1)).
  assert (H3 : timeouts_tracked w3).
  { subst w3. now do 2 (apply tracked_on_hook; [reflexivity|]). }
  destruct (resultTimeoutRef (hook w3)) eqn:E.
  - do 2 apply vacant_on_hook. eapply tracked_release; eauto.
  - eapply tracked_None_vacant; eauto.
Qed.

Lemma enterProcessing_vacant_timeouts w :
  timeouts_tracked w -> vacant is_timeout (enterProcessing w).
Proof.
  intros Hw. unfold enterProcessing. cbv zeta.
  apply recordResponseTime_vacant, vacant_on_hook.
  now apply clearTimer_vacant_timeouts.
Qed.

Lemma enterProcessing_vacant_intervals w :
  intervals_tracked w -> vacant is_interval (enterProcessing w).
Proof.
  intros Hw. unfold enterProcessing. cbv zeta.
  apply recordResponseTime_vacant, vacant_on_hook.
  now apply clearTimer_vacant_intervals.
Qed.

Lemma step_timeouts_no_resume c w :
  no_resume c = true ->
  timeouts_tracked w -> timeouts_tracked (step config onComplete c w).
Proof.
  intros Hc Hw. destruct c; try discriminate Hc; simpl.
  - now apply start_timeouts.
  - now apply startOptionsCountdown_timeouts.
  - now apply startQuestionCountdown_timeouts.
  - now apply select_timeouts.
  - unfold updateSelectedIndex. case_decide; [|exact Hw].
    now apply tracked_on_hook.
  - now apply vacant_tracked, enterProcessing_vacant_timeouts.
  - now apply enterResult_timeouts.
  - now apply startResultTimeout_timeouts.
  - now apply vacant_tracked, pause_vacant_timeouts.
  - now apply vacant_tracked, reset_vacant_timeouts.
  - now apply vacant_tracked, clearTimer_vacant_timeouts.
  - now apply tracked_advance.
  - now apply fire_timeouts.
Qed.

Lemma run_timeouts_no_resume l : forall w,
  forallb no_resume l = true ->
  timeouts_tracked w -> timeouts_tracked (run config onComplete l w).
Proof.
  induction l as [|c l IH]; intros w Hl Hw; [exact Hw|].
  simpl in Hl. apply andb_prop in Hl as [Hc Hl].
  apply IH; [exact Hl|]. now apply step_timeouts_no_resume.
Qed.

Lemma startResultTimeout_only w h d :
  timeouts_tracked w -> phase (hook w) = result ->
  timers (startResultTimeout config w) !! h = Some (Timeout d) ->
  h = nextHandle w /\
  d = now w + Z.max 0 (resultDuration (finalConfig config)).
Proof.
  intros Hw Hp. unfold startResultTimeout. rewrite decide_True by exact Hp.
  unfold scheduleResultTimeout, setTimeout, addTimer, clearTimeout.
  destruct (resultTimeoutRef (hook w)) as [h0|] eqn:E; simpl; intros Hl;
    map_inv; simplify_eq; auto;
    specialize (Hw _ _ ltac:(eassumption) eq_refl); congruence.
Qed.

(** X4: along every history that contains no [resume], at most one result
    timeout is pending, so [onComplete] is not scheduled twice; and in the
    result phase [startResultTimeout] replaces the pending result timeout:
    the only one pending afterwards is the new one, due [resultDuration]
    from now. *)
Theorem one_result_timeout_without_resume (t0 : Z) (l : list call) :
  forallb no_resume l = true ->
  let w := run config onComplete l (initialWorld t0) in
  (forall h1 h2 d1 d2,
      timers w !! h1 = Some (Timeout d1) ->
      timers w !! h2 = Some (Timeout d2) -> h1 = h2) /\
  (phase (hook w) = result ->
   forall h d,
     timers (startResultTimeout config w) !! h = Some (Timeout d) ->
     h = nextHandle w /\
     d = now w + Z.max 0 (resultDuration (finalConfig config))).
Proof.
  intros Hl w.
  assert (Ht : timeouts_tracked w).
  { apply run_timeouts_no_resume; [exact Hl|].
    apply vacant_tracked, initialWorld_vacant. }
  split.
  - intros h1 h2 d1 d2 H1 H2.
    pose proof (Ht _ _ H1 eq_refl). pose proof (Ht _ _ H2 eq_refl).
    congruence.
  - intros Hp h d. now apply startResultTimeout_only.
Qed.

End ResultTimeouts.

Lemma one_result_timeout_without_resume_witness :
  let l := [Start noDelay; Advance 1000; Fire 1%positive; Advance 500;
            Select 2 false; Advance 700; StartResultTimeout] in
  let w := run defaultConfig true l (initialWorld 0) in
  forallb no_resume l = true /\
  timers w !! 4%positive = Some (Timeout 3700) /\
  forall h d, timers w !! h = Some (Timeout d) -> h = 4%positive.
Proof.
  cbv zeta.
  pose proof (one_result_timeout_without_resume defaultConfig true 0
    [Start noDelay; Advance 1000; Fire 1%positive; Advance 500;
     Select 2 false; Advance 700; StartResultTimeout] eq_refl) as [H _].
  cbv zeta in H.
  split; [reflexivity|]. split; [reflexivity|].
  intros h d Hd. exact (H h 4%positive d 3700 Hd eq_refl).
Defined.

(** ** Pausing twice, resuming twice *)

Section Idempotence.

Variable config : ExerciseFlowConfig.

(** X5: a second [pause] changes nothing: the snapshot taken by the first
    one is kept. *)
Theorem pause_idempotent (w : World) :
  pause config (pause config w) = pause config w.
Proof.
  destruct w as [[? ? ? ? tr rt ? ? ? ? ? ? ? ?] ? ? ? ?].
  destruct tr, rt; reflexivity.
Qed.

Lemma startCountdown_paused d cb w :
  isPaused (hook (startCountdown d cb w)) = isPaused (hook w) /\
  pausedOnEndRef (hook (startCountdown d cb w)) = pausedOnEndRef (hook w) /\
  pausedResultRemainingRef (hook (startCountdown d cb w))
  = pausedResultRemainingRef (hook w).
Proof.
  unfold startCountdown, setInterval, addTimer, clearInterval.
  destruct (timerRef (hook w)); repeat split.
Qed.

Lemma runOnEnd_paused cb w :
  isPaused (hook (runOnEnd config cb w)) = isPaused (hook w) /\
  pausedOnEndRef (hook (runOnEnd config cb w)) = pausedOnEndRef (hook w) /\
  pausedResultRemainingRef (hook (runOnEnd config cb w))
  = pausedResultRemainingRef (hook w).
Proof.
  destruct w as [[? ? ? ? tr rt os rs ? ? ? ? ? ?] ? ? ? ?].
  destruct cb as [dO| |tag]; simpl.
  - destruct dO, (cfg_onAnswerPhaseStarted config), tr; repeat split.
  - destruct tr, rt, os, rs; repeat split.
  - repeat split.
Qed.

Lemma set_isPaused_id h : isPaused h = false -> set_isPaused false h = h.
Proof. destruct h; simpl. now intros ->. Qed.

Lemma resume_without_snapshot w :
  pausedOnEndRef (hook w) = None -> pausedResultRemainingRef (hook w) = 0 ->
  resume config w = on_hook (set_isPaused false) w.
Proof.
  intros Hp Hr. unfold resume. cbv zeta.
  change (pausedResultRemainingRef (hook (on_hook (set_isPaused false) w)))
    with (pausedResultRemainingRef (hook w)).
  change (pausedOnEndRef (hook (on_hook (set_isPaused false) w)))
    with (pausedOnEndRef (hook w)).
  rewrite Hr, Hp, andb_false_r.
  destruct w as [[] ? ? ? ?]; simpl in *. now subst.
Qed.

(** X6: with no paused result timeout, a second [resume] changes nothing:
    the countdown restarted, or the end callback run, by the first one is
    not restarted or run again. *)
Theorem resume_idempotent (w : World) :
  pausedResultRemainingRef (hook w) = 0 ->
  resume config (resume config w) = resume config w.
Proof.
  intros Hr.
  assert (E : isPaused (hook (resume config w)) = false /\
              pausedOnEndRef (hook (resume config w)) = None /\
              pausedResultRemainingRef (hook (resume config w)) = 0).
  { unfold resume. cbv zeta.
    change (pausedResultRemainingRef (hook (on_hook (set_isPaused false) w)))
      with (pausedResultRemainingRef (hook w)).
    rewrite Hr, andb_false_r.
    set (w1 := on_hook (set_isPaused false) w).
    set (X := match pausedOnEndRef (hook w1) with
              | Some cb =>
                  if 0 <? pausedRemainingRef (hook w1)
                  then startCountdown (pausedRemainingRef (hook w1)) cb w1
                  else runOnEnd config cb w1
              | None => w1
              end).
    assert (HX : isPaused (hook X) = false /\
                 pausedResultRemainingRef (hook X) = 0).
    { subst X. destruct (pausedOnEndRef (hook w1)) as [cb|];
        [destruct (0 <? pausedRemainingRef (hook w1))|].
      - destruct (startCountdown_paused (pausedRemainingRef (hook w1)) cb w1)
          as (A & _ & C).
        rewrite A, C. split; [reflexivity|exact Hr].
      - destruct (runOnEnd_paused cb w1) as (A & _ & C).
        rewrite A, C. split; [reflexivity|exact Hr].
      - split; [reflexivity|exact Hr]. }
    destruct HX as [H1 H2]. split; [exact H1|]. split; [reflexivity|exact H2]. }
  destruct E as (E1 & E2 & E3).
  rewrite (resume_without_snapshot _ E2 E3).
  destruct (resume config w) as [hk ? ? ? ?]. unfold on_hook. simpl in *.
  f_equal. now apply set_isPaused_id.
Qed.

End Idempotence.

Lemma resume_idempotent_witness :
  let w :=
    pause defaultConfig
      (run defaultConfig true
         [Start noDelay; Advance 1000; Fire 1%positive; Advance 300]
         (initialWorld 0)) in
  pausedResultRemainingRef (hook w) = 0 /\
  resume defaultConfig (resume defaultConfig w) = resume defaultConfig w.
Proof.
  cbv zeta. split; [reflexivity|].
  apply resume_idempotent. reflexivity.
Defined.

(** ** When nothing is pending *)

Section Quiet.

Variable config : ExerciseFlowConfig.
Variable onComplete : bool.

(** With no timer pending the runtime changes nothing but the clock. *)
Lemma runtime_quiet l : forall w,
  forallb runtime_call l = true -> timers w = ∅ ->
  hook (run config onComplete l w) = hook w /\
  trace (run config onComplete l w) = trace w /\
  timers (run config onComplete l w) = ∅.
Proof.
  induction l as [|c l IH]; intros w Hl He; [now repeat split|].
  simpl in Hl. apply andb_prop in Hl as [Hc Hl].
  assert (E : hook (step config onComplete c w) = hook w /\
              trace (step config onComplete c w) = trace w /\
              timers (step config onComplete c w) = ∅).
  { destruct c; try discriminate Hc; simpl.
    - now repeat split.
    - unfold fire. rewrite He, lookup_empty. now repeat split. }
  destruct E as (E1 & E2 & E3).
  destruct (IH _ Hl E3) as (A & B & C). simpl.
  repeat split; congruence.
Qed.

(** X7: along every history that contains no [resume], [clearTimer],
    [enterProcessing], [pause] and [reset] each leave no timer pending at
    all; and with no timer pending, time passing and stray timer firings
    change neither the hook nor the caller's callbacks: nothing times out
    and [onComplete] is not called until the caller acts. *)
Theorem nothing_pending_after_cancel (t0 : Z) (l : list call) :
  forallb no_resume l = true ->
  let w := run config onComplete l (initialWorld t0) in
  timers (clearTimer w) = ∅ /\ timers (enterProcessing w) = ∅ /\
  timers (pause config w) = ∅ /\ timers (reset w) = ∅ /\
  forall w1 env,
    w1 = clearTimer w \/ w1 = enterProcessing w \/
    w1 = pause config w \/ w1 = reset w ->
    forallb runtime_call env = true ->
    hook (run config onComplete env w1) = hook w1 /\
    trace (run config onComplete env w1) = trace w1.
Proof.
  intros Hl w.
  assert (Hi : intervals_tracked w).
  { apply run_intervals, vacant_tracked, initialWorld_vacant. }
  assert (Ht : timeouts_tracked w).
  { apply run_timeouts_no_resume; [exact Hl|].
    apply vacant_tracked, initialWorld_vacant. }
  assert (E1 : timers (clearTimer w) = ∅).
  { apply vacant_empty;
      [now apply clearTimer_vacant_intervals
      |now apply clearTimer_vacant_timeouts]. }
  assert (E2 : timers (enterProcessing w) = ∅).
  { apply vacant_empty;
      [now apply enterProcessing_vacant_intervals
      |now apply enterProcessing_vacant_timeouts]. }
  assert (E3 : timers (pause config w) = ∅).
  { apply vacant_empty;
      [now apply pause_vacant|now apply pause_vacant_timeouts]. }
  assert (E4 : timers (reset w) = ∅).
  { apply vacant_empty;
      [now apply reset_vacant_intervals|now apply reset_vacant_timeouts]. }
  do 4 (split; [assumption|]).
  intros w1 env Hw1 Henv.
  assert (He : timers w1 = ∅)
    by (destruct Hw1 as [->|[->|[->| ->]]]; assumption).
  destruct (runtime_quiet env w1 Henv He) as (A & B & _). now split.
Qed.



(** X9: a result timeout can be stacked. In the result phase with time
    left, [pause()], [startResultTimeout()], [resume()] leave two result
    timeouts pending, one started by each of the last two calls; only the
    later one is held in [resultTimeoutRef], so even [reset()] leaves the
    earlier one pending, and [onComplete] will be called by it. *)
Theorem resume_stacks_result_timeout (w : World) (h : handle) :
  phase (hook w) = result -> resultTimeoutRef (hook w) = Some h ->
  let left :=
    Z.max 0 (resultDuration (finalConfig config)
             - (now w - resultStartTimeRef (hook w))) in
  0 < left ->
  let rd := Z.max 0 (resultDuration (finalConfig config)) in
  let w' := resume config (startResultTimeout config (pause config w)) in
  timers w' !! nextHandle w = Some (Timeout (now w + rd)) /\
  timers w' !! Pos.succ (nextHandle w) = Some (Timeout (now w + left)) /\
  resultTimeoutRef (hook w') = Some (Pos.succ (nextHandle w)) /\
  timers (reset w') !! nextHandle w = Some (Timeout (now w + rd)).
Proof.
  intros Hp Hr left Hleft rd w'.
  destruct (pause_spec config w)
    as (_ & Htr & Hrt & _ & _ & Hpl & Hph & _ & Hn & Hnh & _).
  rewrite Hr in Hpl. fold left in Hpl. rewrite Hp in Hph.
  set (w1 := pause config w) in *. clearbody w1.
  assert (E2 : startResultTimeout config w1 =
    on_hook (set_resultTimeoutRef (Some (nextHandle w)))
      (addTimer (Timeout (now w + rd)) w1).2).
  { unfold startResultTimeout. rewrite decide_True by exact Hph.
    rewrite Hrt. unfold scheduleResultTimeout, setTimeout, addTimer. simpl.
    now rewrite Hn, Hnh. }
  set (w2 := startResultTimeout config w1) in *. clearbody w2.
  assert (E3 : w' =
    on_hook (set_pausedResultRemainingRef 0)
      (scheduleResultTimeout (pausedResultRemainingRef (hook w2))
         (on_hook (set_resultStartTimeRef (now w2))
            (on_hook (set_isPaused false) w2)))).
  { subst w'. apply resume_result; rewrite E2; simpl; [exact Hph|].
    now rewrite Hpl. }
  clearbody w'.
  assert (T : timers w' =
    <[Pos.succ (nextHandle w) := Timeout (now w + left)]>
      (<[nextHandle w := Timeout (now w + rd)]> (timers w1))).
  { rewrite E3, E2. unfold scheduleResultTimeout, setTimeout, addTimer.
    simpl. now rewrite Hpl, Hn, Hnh, (Z.max_r 0 left) by lia. }
  assert (R : resultTimeoutRef (hook w') = Some (Pos.succ (nextHandle w)) /\
              timerRef (hook w') = None).
  { rewrite E3, E2. unfold scheduleResultTimeout, setTimeout, addTimer.
    simpl. now rewrite Hnh, Htr. }
  destruct R as [R1 R2].
  assert (Hne : Pos.succ (nextHandle w) <> nextHandle w).
  { intros E. symmetry in E. exact (Pos.succ_discr _ E). }
  split; [rewrite T, lookup_insert_ne, lookup_insert_eq by exact Hne;
          reflexivity|].
  split; [rewrite T; apply lookup_insert_eq|]. split; [exact R1|].
  assert (TR : timers (reset w') =
               cancel (resultTimeoutRef (hook w'))
                 (cancel (timerRef (hook w')) (timers w'))).
  { clear. destruct w' as [[? ? ? ? tr rt ? ? ? ? ? ? ? ?] ? ? ? ?].
    destruct tr, rt; reflexivity. }
  rewrite TR, R1, R2. simpl.
  rewrite lookup_delete_ne, T, lookup_insert_ne, lookup_insert_eq
    by exact Hne.
  reflexivity.
Qed.

Lemma startCountdown_vacant_timeouts d cb w :
  vacant is_timeout w -> vacant is_timeout (startCountdown d cb w).
Proof.
  intros Hv. unfold startCountdown, setInterval, clearInterval. cbv zeta.
  apply vacant_on_hook, vacant_addTimer; [reflexivity|].
  do 2 apply vacant_on_hook.
  destruct (timerRef (hook w)); [|exact Hv]. now apply vacant_delete.
Qed.

(** X10: [startResultTimeout] does not write [resultStartTimeRef], so a
    [pause] that comes when [resultDuration] or more has passed since that
    timestamp snapshots no time left: the manually started result timeout
    is cancelled for good, and [resume] restarts instead the last countdown
    with its old end callback, for the [remainingMs] still displayed. *)
Theorem pause_forgets_manual_result_timeout
  (w : World) (h : handle) (cb : onEnd) (d : Z) :
  timeouts_tracked w ->
  phase (hook w) = result -> resultTimeoutRef (hook w) = Some h ->
  resultDuration (finalConfig config)
  <= now w - resultStartTimeRef (hook w) ->
  currentOnEndRef (hook w) = Some cb -> 0 < remainingMs (hook w) ->
  0 <= d ->
  let w' := resume config (advance d (pause config w)) in
  vacant is_timeout w' /\ resultTimeoutRef (hook w') = None /\
  counting w' (nextHandle w) (now w + d) (remainingMs (hook w)) cb.
Proof.
  intros Ht Hp Hr Hle Hcb Hrem Hd w'.
  pose proof (pause_vacant_timeouts config w Ht) as Hv.
  destruct (pause_spec config w)
    as (_ & Htr & Hrt & Hpr & Hpo & Hpl & Hph & _ & Hn & Hnh & _).
  rewrite Hr, Z.max_l in Hpl by lia. rewrite Hcb in Hpo.
  set (w1 := pause config w) in *. clearbody w1.
  set (c := on_hook (set_isPaused false) (advance d w1)).
  assert (E : w' = on_hook (set_pausedOnEndRef None)
                     (startCountdown (remainingMs (hook w)) cb c)).
  { subst w'. unfold resume. cbv zeta. fold c.
    change (pausedResultRemainingRef (hook c))
      with (pausedResultRemainingRef (hook w1)).
    change (pausedOnEndRef (hook c)) with (pausedOnEndRef (hook w1)).
    change (pausedRemainingRef (hook c)) with (pausedRemainingRef (hook w1)).
    rewrite Hpl, Hpo, Hpr, andb_false_r.
    now destruct (Z.ltb_spec 0 (remainingMs (hook w))); [|lia]. }
  clearbody w'. rewrite E.
  pose proof (startCountdown_counting (remainingMs (hook w)) cb c) as Hc.
  change (nextHandle c) with (nextHandle w1) in Hc.
  change (now c) with (now w1 + Z.max 0 d) in Hc.
  rewrite Hnh, Hn, Z.max_r in Hc by lia.
  split; [|split; [|exact Hc]].
  - apply vacant_on_hook, startCountdown_vacant_timeouts.
    subst c. now apply vacant_on_hook, vacant_advance.
  - unfold startCountdown, setInterval, addTimer, clearInterval. subst c.
    simpl. rewrite Htr. simpl. exact Hrt.
Qed.

End Quiet.

Lemma nothing_pending_after_cancel_witness :
  let l := [Start noDelay; Advance 1000; Fire 1%positive; Advance 700] in
  let w := run defaultConfig true l (initialWorld 0) in
  forallb no_resume l = true /\
  forallb runtime_call [Advance 90000; Fire 2%positive] = true /\
  timers (enterProcessing w) = ∅ /\
  hook (run defaultConfig true [Advance 90000; Fire 2%positive]
          (enterProcessing w)) = hook (enterProcessing w).
Proof.
  cbv zeta.
  pose proof (nothing_pending_after_cancel defaultConfig true 0
    [Start noDelay; Advance 1000; Fire 1%positive; Advance 700] eq_refl)
    as (_ & H2 & _ & _ & H5).
  cbv zeta in H2, H5.
  split; [reflexivity|]. split; [reflexivity|]. split; [exact H2|].
  apply (H5 _ [Advance 90000; Fire 2%positive]); [|reflexivity].
  right. left. reflexivity.
Defined.


Lemma resume_stacks_result_timeout_witness :
  let w :=
    run defaultConfig true
      [Start noDelay; Advance 1000; Fire 1%positive; Advance 500;
       Select 2 false; Advance 400] (initialWorld 0) in
  let w' :=
    resume defaultConfig
      (startResultTimeout defaultConfig (pause defaultConfig w)) in
  phase (hook w) = result /\ resultTimeoutRef (hook w) = Some 3%positive /\
  0 < Z.max 0 (1500 - (now w - resultStartTimeRef (hook w))) /\
  timers w' !! nextHandle w = Some (Timeout (now w + 1500)) /\
  timers (reset w') !! nextHandle w = Some (Timeout (now w + 1500)).
Proof.
  cbv zeta.
  pose proof (resume_stacks_result_timeout defaultConfig
    (run defaultConfig true
       [Start noDelay; Advance 1000; Fire 1%positive; Advance 500;
        Select 2 false; Advance 400] (initialWorld 0))
    3%positive eq_refl eq_refl) as H.
  cbv zeta in H.
  split; [reflexivity|]. split; [reflexivity|].
  assert (Hl : 0 < Z.max 0 (1500 - (now
    (run defaultConfig true
       [Start noDelay; Advance 1000; Fire 1%positive; Advance 500;
        Select 2 false; Advance 400] (initialWorld 0))
    - resultStartTimeRef (hook
    (run defaultConfig true
       [Start noDelay; Advance 1000; Fire 1%positive; Advance 500;
        Select 2 false; Advance 400] (initialWorld 0))))))
    by (vm_compute; reflexivity).
  split; [exact Hl|].
  destruct (H Hl) as (H1 & _ & _ & H4). split; [exact H1|exact H4].
Defined.

Lemma pause_forgets_manual_result_timeout_witness :
  let w :=
    run defaultConfig true
      [Start noDelay; Advance 1000; Fire 1%positive; Advance 1200;
       Fire 2%positive; Select 2 true; Advance 2000; StartResultTimeout;
       Advance 400] (initialWorld 0) in
  let w' := resume defaultConfig (advance 5000 (pause defaultConfig w)) in
  phase (hook w) = result /\ resultTimeoutRef (hook w) = Some 3%positive /\
  timers w !! 3%positive = Some (Timeout 5700) /\ now w = 4600 /\
  vacant is_timeout w' /\
  counting w' 4%positive 9600 2800 optionsTimeout.
Proof.
  cbv zeta.
  assert (Ht : timeouts_tracked
    (run defaultConfig true
      [Start noDelay; Advance 1000; Fire 1%positive; Advance 1200;
       Fire 2%positive; Select 2 true; Advance 2000; StartResultTimeout;
       Advance 400] (initialWorld 0))).
  { apply run_timeouts_no_resume; [reflexivity|].
    apply vacant_tracked, initialWorld_vacant. }
  pose proof (pause_forgets_manual_result_timeout defaultConfig
    _ 3%positive optionsTimeout 5000 Ht eq_refl eq_refl
    ltac:(vm_compute; discriminate) eq_refl ltac:(vm_compute; reflexivity)
    ltac:(lia)) as (H1 & _ & H3).
  split; [reflexivity|]. split; [reflexivity|]. split; [reflexivity|].
  split; [reflexivity|]. split; [exact H1|exact H3].
Defined.

(** ** The display phase countdown *)

Section DisplayPhaseProperties.

Import DisplayPhase.

Lemma displayPhase_clearTimer_empty w :
  tracked w -> timers (clearTimer w) = ∅ /\ timerRef (clearTimer w) = None.
Proof.
  intros Hw. unfold clearTimer.
  destruct (timerRef w) as [h|] eqn:E; simpl.
  - split; [|reflexivity]. apply map_empty. intros h'.
    destruct (decide (h' = h)) as [->|Hne]; [apply lookup_delete_eq|].
    rewrite lookup_delete_ne by congruence.
    destruct (timers w !! h') eqn:El; [|reflexivity].
    specialize (Hw _ _ El). congruence.
  - split; [|exact E]. apply map_empty. intros h'.
    destruct (timers w !! h') eqn:El; [|reflexivity].
    specialize (Hw _ _ El). congruence.
Qed.

Lemma displayPhase_empty_tracked w : timers w = ∅ -> tracked w.
Proof. intros He h i. rewrite He, lookup_empty. discriminate. Qed.

Lemma displayPhase_effect_tracked p w :
  timers w = ∅ -> tracked (effect p w).
Proof.
  intros He. unfold effect. destruct (isActive p);
    [|now apply displayPhase_empty_tracked].
  destruct (onStart p); intros h i; simpl; rewrite He;
    intros Hl; apply lookup_insert_Some in Hl as [[<- _]|[_ Hl]];
    try reflexivity; now rewrite lookup_empty in Hl.
Qed.

Lemma displayPhase_fire_tracked h w : tracked w -> tracked (fire h w).
Proof.
  intros Hw. unfold fire, intervalCallback.
  destruct (timers w !! h) as [i|]; [|exact Hw]. cbv zeta.
  set (w1 := setRemainingMs _ w).
  assert (H1 : tracked w1) by exact Hw.
  case_match; [|exact H1].
  apply displayPhase_empty_tracked.
  now destruct (displayPhase_clearTimer_empty w1 H1).
Qed.

Lemma displayPhase_step_tracked c w : tracked w -> tracked (step c w).
Proof.
  intros Hw. destruct c; simpl.
  - unfold render. destruct (lastDeps w); [|exact Hw].
    case_decide; [exact Hw|].
    apply displayPhase_effect_tracked.
    now destruct (displayPhase_clearTimer_empty w Hw).
  - apply displayPhase_empty_tracked.
    now destruct (displayPhase_clearTimer_empty w Hw).
  - apply displayPhase_empty_tracked. unfold unmount. simpl.
    destruct (displayPhase_clearTimer_empty w Hw) as [E1 E2].
    unfold clearTimer at 1. now rewrite E2.
  - exact Hw.
  - now apply displayPhase_fire_tracked.
Qed.

Lemma displayPhase_mount_tracked p t0 : tracked (mount p t0).
Proof. now apply displayPhase_effect_tracked. Qed.

Lemma displayPhase_run_tracked l : forall w, tracked w -> tracked (run l w).
Proof.
  induction l as [|c l IH]; intros w Hw; [exact Hw|].
  apply IH, displayPhase_step_tracked, Hw.
Qed.

(** X11: along every history of renders, [clearTimer] calls, unmounting,
    time passing and timer firings after the first render, every pending
    interval is the one held in [timerRef]: at most one countdown is
    pending. *)
Theorem displayPhase_single_interval
  (p : UseDisplayPhaseOptions) (t0 : Z) (l : list call) :
  let w := run l (mount p t0) in
  forall h1 h2 i1 i2,
    timers w !! h1 = Some i1 -> timers w !! h2 = Some i2 ->
    h1 = h2 /\ i1 = i2 /\ timerRef w = Some h1.
Proof.
  intros w h1 h2 i1 i2 H1 H2.
  assert (Hw : tracked w)
    by apply displayPhase_run_tracked, displayPhase_mount_tracked.
  pose proof (Hw _ _ H1) as E1. pose proof (Hw _ _ H2) as E2.
  assert (h1 = h2) by congruence. subst h2.
  split; [reflexivity|]. split; [congruence|exact E1].
Qed.

(** With no timer pending the runtime changes nothing but the clock. *)
Lemma displayPhase_runtime_quiet l : forall w,
  forallb runtime_call l = true -> timers w = ∅ ->
  trace (run l w) = trace w /\ remainingMs (run l w) = remainingMs w /\
  timers (run l w) = ∅.
Proof.
  induction l as [|c l IH]; intros w Hl He; [now repeat split|].
  simpl in Hl. apply andb_prop in Hl as [Hc Hl].
  assert (E : trace (step c w) = trace w /\
              remainingMs (step c w) = remainingMs w /\
              timers (step c w) = ∅).
  { destruct c; try discriminate Hc; simpl.
    - now repeat split.
    - unfold fire. rewrite He, lookup_empty. now repeat split. }
  destruct E as (E1 & E2 & E3).
  destruct (IH _ Hl E3) as (A & B & C). simpl.
  repeat split; congruence.
Qed.

Lemma displayPhase_effect_running p w :
  isActive p = true -> timers w = ∅ ->
  let w0 := effect p w in
  running w0 (nextHandle w)
    {| period := COUNTDOWN_INTERVAL; startedAt := now w;
       lasts := durationOf p; completes := onComplete p |} /\
  now w0 = now w /\ remainingMs w0 = durationOf p /\
  trace w0 = trace w ++ match onStart p with
                        | Some cb => [Started cb]
                        | None => []
                        end.
Proof.
  intros Ha He. unfold effect, running. rewrite Ha.
  destruct (onStart p); simpl; rewrite He, ?app_nil_r; repeat split.
Qed.

Lemma displayPhase_tick_running w h i :
  running w h i -> now w - startedAt i < lasts i ->
  fire h w = setRemainingMs (lasts i - (now w - startedAt i)) w.
Proof.
  intros [Hr Ht] Hlt. unfold fire. rewrite Ht, lookup_singleton_eq.
  unfold intervalCallback. cbv zeta. rewrite Z.max_r by lia.
  destruct (Z.leb_spec (lasts i - (now w - startedAt i)) 0);
    [lia|reflexivity].
Qed.

Lemma displayPhase_tick_due w h i :
  running w h i -> lasts i <= now w - startedAt i ->
  let w' := fire h w in
  remainingMs w' = 0 /\ trace w' = trace w ++ [Completed (completes i)] /\
  timers w' = ∅ /\ timerRef w' = None /\ now w' = now w.
Proof.
  intros [Hr Ht] Hle. unfold fire. rewrite Ht, lookup_singleton_eq.
  unfold intervalCallback. cbv zeta. rewrite Z.max_l by lia.
  simpl (0 <=? 0). unfold clearTimer. simpl. rewrite Hr. simpl.
  rewrite Ht, delete_singleton_eq. repeat split.
Qed.

Lemma displayPhase_ticks_running h i ds : forall w,
  running w h i -> Forall (fun d => 0 <= d) ds ->
  ds = [] \/ now w + total ds - startedAt i < lasts i ->
  let w' := ticks h ds w in
  running w' h i /\ now w' = now w + total ds /\ trace w' = trace w /\
  (ds <> [] -> remainingMs w' = lasts i - (now w' - startedAt i)).
Proof.
  induction ds as [|d ds IH]; intros w Hc Hpos Hlt w'.
  - subst w'. simpl. repeat split; try apply Hc; try lia. congruence.
  - subst w'. simpl.
    destruct Hlt as [Hlt|Hlt]; [discriminate|].
    inversion Hpos as [|? ? Hd Hds]; subst.
    pose proof (total_nonneg ds Hds) as Ht. simpl in Hlt.
    assert (Hc' : running (advance d w) h i) by exact Hc.
    assert (E : waitFire h d w =
                setRemainingMs (lasts i - (now w + d - startedAt i))
                  (advance d w)).
    { unfold waitFire. rewrite (displayPhase_tick_running _ h i Hc').
      - simpl. now rewrite Z.max_r by lia.
      - simpl. rewrite Z.max_r by lia. lia. }
    rewrite E. set (w1 := setRemainingMs _ (advance d w)).
    assert (Hc1 : running w1 h i) by exact Hc.
    assert (Hn1 : now w1 = now w + d).
    { subst w1. simpl. now rewrite Z.max_r by lia. }
    destruct (IH w1 Hc1 Hds) as (A & B & C & D).
    { right. rewrite Hn1. lia. }
    split; [exact A|]. split; [rewrite B, Hn1; lia|].
    split; [rewrite C; reflexivity|].
    intros _. destruct ds as [|d' ds'].
    + simpl. subst w1. simpl. rewrite Z.max_r by lia. lia.
    + apply D. discriminate.
Qed.

Lemma displayPhase_activated_running p w0 :
  activated p w0 ->
  exists h st,
    running w0 h
      {| period := COUNTDOWN_INTERVAL; startedAt := st;
         lasts := durationOf p; completes := onComplete p |} /\
    now w0 = st /\ remainingMs w0 = durationOf p.
Proof.
  intros [Ha [[t0 ->]|(p0 & t0 & l & Hd1 & Hd2 & ->)]].
  - destruct (displayPhase_effect_running p
      {| remainingMs := durationOf p; timerRef := None;
         lastDeps := Some (deps p); now := t0; timers := ∅;
         nextHandle := 1%positive; trace := [] |} Ha eq_refl)
      as (A & B & C & _).
    exists 1%positive, t0.
    split; [exact A|]. split; [exact B|exact C].
  - set (w := run l (mount p0 t0)) in *.
    assert (Hw : tracked w)
      by apply displayPhase_run_tracked, displayPhase_mount_tracked.
    destruct (displayPhase_clearTimer_empty w Hw) as [E1 E2].
    unfold render. destruct (lastDeps w) as [dd|]; [|congruence].
    rewrite decide_False by congruence.
    destruct (displayPhase_effect_running p
                (set_lastDeps (Some (deps p)) (clearTimer w)) Ha E1)
      as (A & B & C & _).
    exists (nextHandle (set_lastDeps (Some (deps p)) (clearTimer w))),
      (now (set_lastDeps (Some (deps p)) (clearTimer w))).
    split; [exact A|]. split; [exact B|exact C].
Qed.

(** X12: once the countdown is activated (at mount, or at a render whose
    dependencies changed) [remainingMs] shows the full duration; the ticks
    that come before the duration has elapsed only refresh [remainingMs]
    and call nothing; the first tick at or after it sets [remainingMs] to
    zero, calls [onComplete] once and leaves no timer pending, so that
    whatever the runtime does next [onComplete] is not called again. *)
Theorem displayPhase_completes_once
  (p : UseDisplayPhaseOptions) (w0 : World) (ds : list Z) (d : Z) :
  activated p w0 ->
  before (durationOf p) ds -> 0 <= d -> durationOf p <= total ds + d ->
  exists h,
    let w1 := ticks h ds w0 in
    let w2 := waitFire h d w1 in
    remainingMs w0 = durationOf p /\
    trace w1 = trace w0 /\
    (ds <> [] -> remainingMs w1 = durationOf p - total ds) /\
    remainingMs w2 = 0 /\
    trace w2 = trace w0 ++ [Completed (onComplete p)] /\
    forall env, forallb runtime_call env = true ->
      trace (run env w2) = trace w2 /\ remainingMs (run env w2) = 0.
Proof.
  intros Hact [Hpos Hb] Hd Hle.
  destruct (displayPhase_activated_running p w0 Hact)
    as (h & st & Hrun & Hn & Hrem).
  exists h. intros w1 w2.
  destruct (displayPhase_ticks_running h _ ds w0 Hrun Hpos)
    as (A & B & C & D).
  { destruct Hb as [Hb|Hb]; [now left|right]. simpl. lia. }
  fold w1 in A, B, C, D. simpl in D.
  assert (A' : running (advance d w1) h
    {| period := COUNTDOWN_INTERVAL; startedAt := st;
       lasts := durationOf p; completes := onComplete p |}) by exact A.
  destruct (displayPhase_tick_due (advance d w1) h _ A')
    as (E1 & E2 & E3 & _).
  { simpl. rewrite B, Z.max_r by lia. lia. }
  fold (waitFire h d w1) in E1, E2, E3. fold w2 in E1, E2, E3.
  simpl in E2.
  split; [exact Hrem|]. split; [exact C|].
  split; [intros Hne; rewrite (D Hne), B; lia|].
  split; [exact E1|]. split; [now rewrite E2, C|].
  intros env Henv.
  destruct (displayPhase_runtime_quiet env w2 Henv E3) as (F & G & _).
  split; [exact F|now rewrite G].
Qed.

(** X13: along every history, a render that turns [isActive] off, a
    [clearTimer] call and unmounting each leave no timer pending, so that
    whatever the runtime does next [onComplete] is not called and
    [remainingMs] stays as it is. *)
Theorem displayPhase_cancel
  (p0 : UseDisplayPhaseOptions) (t0 : Z) (l : list call)
  (p : UseDisplayPhaseOptions) :
  let w := run l (mount p0 t0) in
  isActive p = false ->
  lastDeps w <> None -> lastDeps w <> Some (deps p) ->
  forall w1,
    w1 = render p w \/ w1 = clearTimer w \/ w1 = unmount w ->
    timers w1 = ∅ /\
    forall env, forallb runtime_call env = true ->
      trace (run env w1) = trace w1 /\
      remainingMs (run env w1) = remainingMs w1.
Proof.
  intros w Ha Hm Hd w1 Hw1.
  assert (Hw : tracked w)
    by apply displayPhase_run_tracked, displayPhase_mount_tracked.
  destruct (displayPhase_clearTimer_empty w Hw) as [E1 E2].
  assert (He : timers w1 = ∅).
  { destruct Hw1 as [->|[->| ->]].
    - unfold render. destruct (lastDeps w) as [dd|]; [|congruence].
      rewrite decide_False by congruence.
      unfold effect. rewrite Ha. exact E1.
    - exact E1.
    - unfold unmount. simpl. unfold clearTimer at 1. now rewrite E2. }
  split; [exact He|]. intros env Henv.
  destruct (displayPhase_runtime_quiet env w1 Henv He) as (A & B & _).
  now split.
Qed.

End DisplayPhaseProperties.

(** ** Exercise helpers *)

Section Helpers.

Lemma prefix_append p s : String.prefix p (p +:+ s) = true.
Proof.
  induction p as [|a p IH]; simpl; [now destruct s|].
  now destruct (Ascii.ascii_dec a a).
Qed.

Lemma prefix_refl s : String.prefix s s = true.
Proof.
  induction s as [|a s IH]; simpl; [reflexivity|].
  now destruct (Ascii.ascii_dec a a).
Qed.

Lemma prefix_split p : forall s,
  String.prefix p s = true -> exists y, s = p +:+ y.
Proof.
  induction p as [|a p IH]; intros s H; [now exists s|].
  destruct s as [|b s]; [discriminate H|]. simpl in H.
  destruct (Ascii.ascii_dec a b) as [->|]; [|discriminate H].
  destruct (IH _ H) as [y ->]. now exists y.
Qed.

Lemma includes_unfold s t :
  includes s t =
  if String.prefix t s then true
  else match s with
       | EmptyString => false
       | String _ s' => includes s' t
       end.
Proof. now destruct s. Qed.

Lemma append_cons a x s : String a x +:+ s = String a (x +:+ s).
Proof. reflexivity. Qed.

Lemma includes_intro x t y : includes (x +:+ t +:+ y) t = true.
Proof.
  induction x as [|a x IH]; rewrite includes_unfold.
  - change ("" +:+ t +:+ y) with (t +:+ y). now rewrite prefix_append.
  - rewrite append_cons.
    destruct (String.prefix t _); [reflexivity|exact IH].
Qed.

Lemma includes_elim t : forall s,
  includes s t = true -> exists x y, s = x +:+ t +:+ y.
Proof.
  induction s as [|a s IH]; rewrite includes_unfold; intros H.
  - destruct (String.prefix t "") eqn:E; [|discriminate H].
    destruct (prefix_split _ _ E) as [y Hy]. now exists "", y.
  - destruct (String.prefix t (String a s)) eqn:E.
    + destruct (prefix_split _ _ E) as [y Hy]. now exists "", y.
    + destruct (IH H) as (x & y & ->). now exists (String a x), y.
Qed.

Lemma string_length_append a b :
  String.length (a +:+ b) = (String.length a + String.length b)%nat.
Proof.
  induction a as [|c a IH]; [reflexivity|].
  rewrite append_cons. simpl. congruence.
Qed.

Lemma substring_all s : String.substring 0 (String.length s) s = s.
Proof. induction s as [|c s IH]; simpl; congruence. Qed.

Lemma substring_append a b :
  String.substring (String.length a) (String.length b) (a +:+ b) = b.
Proof.
  induction a as [|c a IH]; [apply substring_all|].
  rewrite append_cons. exact IH.
Qed.

(** The label is a ten byte heading followed by the pool. *)
Lemma getPoolLabel_heading pool type :
  exists heading,
    String.length heading = 10%nat /\
    getPoolLabel pool type = heading +:+ pool.
Proof.
  unfold getPoolLabel. destruct type; [destruct (startsWith pool "P")|];
    eexists; split; try reflexivity; reflexivity.
Qed.

(** X14: every exercise type gets one of the three categories, a category
    is its own category, and the title shown for the category of a type
    is never the default title. *)
Theorem exercise_category_title (type : string) :
  (getExerciseCategory type = "reading" \/
   getExerciseCategory type = "listening" \/
   getExerciseCategory type = "speaking") /\
  getExerciseCategory (getExerciseCategory type) = getExerciseCategory type /\
  getExerciseTitle (getExerciseCategory type) <> "練習".
Proof.
  assert (H : getExerciseCategory type = "reading" \/
              getExerciseCategory type = "listening" \/
              getExerciseCategory type = "speaking").
  { unfold getExerciseCategory.
    destruct (startsWith type "reading");
      [|destruct (startsWith type "listening")]; tauto. }
  split; [exact H|].
  destruct H as [E|[E|E]]; rewrite E;
    (split; [reflexivity|intros H; vm_compute in H; discriminate H]).
Qed.

(** X15: the pool can be read back from its label, whatever the type, and
    the labels of two different pools differ. *)
Theorem pool_label_keeps_pool (pool pool' : string) (type type' : PoolType) :
  String.substring 10 (String.length pool) (getPoolLabel pool type) = pool /\
  (getPoolLabel pool type = getPoolLabel pool' type' -> pool = pool').
Proof.
  assert (R : forall p t,
    String.substring 10 (String.length p) (getPoolLabel p t) = p).
  { intros p t. destruct (getPoolLabel_heading p t) as (hd & Hl & ->).
    rewrite <- Hl. apply substring_append. }
  split; [apply R|]. intros E.
  assert (L : String.length pool = String.length pool').
  { apply (f_equal String.length) in E.
    destruct (getPoolLabel_heading pool type) as (hd & Hl & Eh).
    destruct (getPoolLabel_heading pool' type') as (hd' & Hl' & Eh').
    rewrite Eh, Eh', !string_length_append, Hl, Hl' in E. lia. }
  rewrite <- (R pool type), <- (R pool' type'), E, L. reflexivity.
Qed.

(** X16: the copies of the helpers in the practice screen, the review
    screen and the pool badge compute what the shared helpers compute:
    the practice screen labels as type [practice], the review screen as
    type [review]; so the two screens give a pool the same label exactly
    when its name does not start with P. *)
Theorem helper_copies_agree (s : string) (type : PoolType) :
  PracticeScreen.getExerciseCategory s = getExerciseCategory s /\
  PracticeScreen.getExerciseTitle s = getExerciseTitle s /\
  PracticeScreen.getPoolLabel s = getPoolLabel s practice /\
  ReviewScreen.getPoolLabel s = getPoolLabel s review /\
  PoolBadge.getPoolLabel type s = getPoolLabel s type /\
  (PracticeScreen.getPoolLabel s = ReviewScreen.getPoolLabel s <->
   startsWith s "P" = false).
Proof.
  repeat split.
  - unfold PracticeScreen.getPoolLabel, ReviewScreen.getPoolLabel.
    destruct (startsWith s "P"); [|reflexivity].
    intros H. vm_compute in H. discriminate H.
  - unfold PracticeScreen.getPoolLabel, ReviewScreen.getPoolLabel.
    now intros ->.
Qed.

Variable toLowerCase : string -> string.
Variable trim : string -> string.

(** X17: a spoken answer is accepted exactly when the normalised word
    occurs somewhere in the normalised transcript; so the word itself is
    accepted, and a word that is blank once normalised accepts every
    transcript. *)
Theorem speaking_answer_contains (transcript correctWord : string) :
  (checkSpeakingAnswer toLowerCase trim transcript correctWord = true <->
   exists x y,
     trim (toLowerCase transcript)
     = x +:+ trim (toLowerCase correctWord) +:+ y) /\
  checkSpeakingAnswer toLowerCase trim correctWord correctWord = true /\
  (trim (toLowerCase correctWord) = "" ->
   checkSpeakingAnswer toLowerCase trim transcript correctWord = true).
Proof.
  unfold checkSpeakingAnswer. cbv zeta. split; [split|split].
  - apply includes_elim.
  - intros (x & y & ->). apply includes_intro.
  - rewrite includes_unfold. now rewrite prefix_refl.
  - intros ->. rewrite includes_unfold. now destruct (trim _).
Qed.

End Helpers.

Lemma pool_label_keeps_pool_witness :
  getPoolLabel "P3" practice = getPoolLabel "P3" practice /\
  String.substring 10 2 (getPoolLabel "P3" practice) = "P3".
Proof.
  destruct (pool_label_keeps_pool "P3" "P3" practice practice) as [H _].
  split; [reflexivity|exact H].
Defined.

Lemma speaking_answer_contains_witness :
  (fun s : string => s) ((fun s : string => s) "") = "" /\
  checkSpeakingAnswer (fun s => s) (fun s => s) "an apple" "" = true.
Proof.
  split; [reflexivity|].
  apply (speaking_answer_contains (fun s => s) (fun s => s) "an apple" "").
  reflexivity.
Defined.

(** ** The refresh signal *)

Section RefreshSignalProperties.

Import RefreshSignal.

(** X18: [trigger] calls the latest subscriber and no other; cancelling an
    earlier subscription of another callback leaves the latest subscriber
    in place; after a subscriber cancels its own subscription [trigger]
    calls nothing; cancelling twice is cancelling once. *)
Theorem refreshSignal_single_subscriber (s : State) (a b : nat) :
  called (trigger (subscribe b (subscribe a s))) = called s ++ [b] /\
  (a <> b ->
   unsubscribe a (subscribe b (subscribe a s)) = subscribe b (subscribe a s)) /\
  trigger (unsubscribe a (subscribe a s)) = unsubscribe a (subscribe a s) /\
  unsubscribe a (unsubscribe a s) = unsubscribe a s.
Proof.
  split; [reflexivity|]. split; [|split].
  - intros Hne. unfold unsubscribe.
    destruct (decide (subscriber (subscribe b (subscribe a s)) = Some a))
      as [E|E]; [simpl in E; congruence|reflexivity].
  - unfold unsubscribe.
    destruct (decide (subscriber (subscribe a s) = Some a)) as [E|E];
      [reflexivity|simpl in E; congruence].
  - unfold unsubscribe.
    destruct (decide (subscriber s = Some a)) as [E|E].
    + destruct (decide (_ = Some a)) as [E'|E'];
        [discriminate E'|reflexivity].
    + now rewrite decide_False.
Qed.

End RefreshSignalProperties.

Lemma refreshSignal_single_subscriber_witness :
  1%nat <> 2%nat /\
  RefreshSignal.unsubscribe 1
    (RefreshSignal.subscribe 2
       (RefreshSignal.subscribe 1 RefreshSignal.initial))
  = RefreshSignal.subscribe 2
      (RefreshSignal.subscribe 1 RefreshSignal.initial).
Proof.
  split; [discriminate|].
  apply (refreshSignal_single_subscriber RefreshSignal.initial 1 2).
  discriminate.
Defined.

(** ** Option highlighting and the progress bar *)

Section Rendering.

Import ExerciseOptions.

Lemma ExerciseOptions_lookup n sel cor show (i : nat) st :
  ExerciseOptions n sel cor show !! i = Some st ->
  (i < n)%nat /\
  st = OptionButton (bool_decide (sel = Some (Z.of_nat i)))
         (bool_decide (Some (Z.of_nat i) = cor)) show.
Proof.
  unfold ExerciseOptions.
  change (map ?f ?l) with (f <$> l).
  rewrite list_lookup_fmap. intros H.
  destruct (seq 0 n !! i) as [j|] eqn:E; [|discriminate H].
  apply lookup_seq in E as [-> Hi]. simpl in H. injection H as <-.
  split; [exact Hi|reflexivity].
Qed.

Lemma OptionButton_spec (s c show : bool) :
  (OptionButton s c show = optionCorrect <-> show = true /\ c = true) /\
  (OptionButton s c show = optionIncorrect <->
   show = true /\ s = true /\ c = false) /\
  (OptionButton s c show = optionSelected <-> show = false /\ s = true).
Proof.
  destruct s, c, show; simpl; repeat split;
    try discriminate; try reflexivity;
    intros H; try discriminate H;
    repeat match goal with
           | E : _ /\ _ |- _ => destruct E
           end; discriminate.
Qed.

(** X19: among the rendered options, the one marked correct is the
    correct one once the result is shown, the only one that can be marked
    incorrect is the selected one when it is wrong, and before the result
    only the selected one is highlighted; so two options are never both
    marked incorrect, and after a timeout ([selectedIndex] -1) or with no
    selection none is marked incorrect or selected. *)
Theorem option_highlighting (n : nat) (sel cor : option Z) (show : bool)
  (i j : nat) (st st' : stateStyle) :
  ExerciseOptions n sel cor show !! i = Some st ->
  ExerciseOptions n sel cor show !! j = Some st' ->
  (st = optionCorrect <-> show = true /\ cor = Some (Z.of_nat i)) /\
  (st = optionIncorrect <->
   show = true /\ sel = Some (Z.of_nat i) /\ cor <> Some (Z.of_nat i)) /\
  (st = optionSelected <-> show = false /\ sel = Some (Z.of_nat i)) /\
  (st = optionIncorrect -> st' = optionIncorrect -> i = j) /\
  (sel = None \/ sel = Some (-1) ->
   st <> optionIncorrect /\ st <> optionSelected).
Proof.
  intros Hi Hj.
  apply ExerciseOptions_lookup in Hi as [_ ->].
  apply ExerciseOptions_lookup in Hj as [_ ->].
  destruct (OptionButton_spec (bool_decide (sel = Some (Z.of_nat i)))
              (bool_decide (Some (Z.of_nat i) = cor)) show)
    as (C & I & S).
  destruct (OptionButton_spec (bool_decide (sel = Some (Z.of_nat j)))
              (bool_decide (Some (Z.of_nat j) = cor)) show)
    as (_ & I' & _).
  rewrite C, I, S, I'. clear C I S I'.
  rewrite !bool_decide_eq_true, !bool_decide_eq_false.
  split; [|split; [|split; [|split]]].
  - split; intros [H1 H2]; split; congruence.
  - split; intros (H1 & H2 & H3); repeat split; congruence.
  - reflexivity.
  - intros (_ & H & _) (_ & H' & _). rewrite H in H'.
    injection H' as H'. lia.
  - assert (Hsel : sel = None \/ sel = Some (-1) ->
                   sel <> Some (Z.of_nat i)).
    { intros [H|H] H'; rewrite H in H';
        [discriminate H'|injection H' as H'; lia]. }
    intros H. apply Hsel in H.
    split; [intros (_ & H' & _)|intros (_ & H')]; exact (H H').
Qed.

End Rendering.

Section ProgressBarProperties.

Import ProgressBar.

Lemma progress_pending k (m : nat) :
  map (fun i : nat =>
         if Z.of_nat i <? Z.of_nat k then progressBarSuccess
         else if Z.of_nat i =? Z.of_nat k then progressBarPrimary
         else progressBarMuted) (seq k m)
  = map (fun i : nat =>
           if decide (i = 0%nat) then progressBarPrimary
           else progressBarMuted) (seq 0 m).
Proof.
  replace (seq k m) with (Nat.add k <$> seq 0 m)
    by (rewrite fmap_add_seq; f_equal; lia).
  change (map ?f ?l) with (f <$> l). rewrite <- list_fmap_compose.
  apply list_fmap_ext. intros _ i _. simpl.
  destruct (Z.ltb_spec (Z.of_nat (k + i)) (Z.of_nat k)); [lia|].
  destruct (decide (i = 0%nat)) as [->|Hne].
  - now rewrite Nat.add_0_r, Z.eqb_refl.
  - destruct (Z.eqb_spec (Z.of_nat (k + i)) (Z.of_nat k)); [lia|reflexivity].
Qed.

Lemma progress_done (k m : nat) :
  (m <= k)%nat ->
  map (fun i : nat =>
         if Z.of_nat i <? Z.of_nat k then progressBarSuccess
         else if Z.of_nat i =? Z.of_nat k then progressBarPrimary
         else progressBarMuted) (seq 0 m)
  = repeat progressBarSuccess m.
Proof.
  intros Hm. induction m as [|m IH]; [reflexivity|].
  rewrite seq_S, map_app, IH by lia. simpl.
  destruct (Z.ltb_spec (Z.of_nat m) (Z.of_nat k)); [|lia].
  clear. induction m as [|m IH]; simpl; congruence.
Qed.

Lemma progress_answered (answers : list bool) :
  Forall (fun c => c = true) answers ->
  map (fun correct : bool =>
         if correct then progressBarSuccess else progressBarDestructive)
      answers
  = repeat progressBarSuccess (length answers).
Proof.
  induction 1 as [|c l -> _ IH]; simpl; congruence.
Qed.

(** X20: with the answers given, the bar shows one item per answer and
    then the pending ones, [total] items in all as long as there are not
    more answers than [total], the first pending one being the current
    item; and while every answer so far is correct it is the bar shown
    without answers for [currentIndex] = number of answers. *)
Theorem progress_bar_items (total cur : Z) (answers : list bool) :
  Z.of_nat (length answers) <= total ->
  length (ProgressBar total cur (Some answers)) = Z.to_nat total /\
  length (ProgressBar total cur None) = Z.to_nat total /\
  (Z.of_nat (length answers) < total ->
   ProgressBar total cur (Some answers) !! length answers
   = Some progressBarPrimary) /\
  (Forall (fun c => c = true) answers ->
   ProgressBar total cur (Some answers)
   = ProgressBar total (Z.of_nat (length answers)) None).
Proof.
  intros Hle. unfold ProgressBar, indices. cbv zeta.
  set (k := length answers) in *.
  assert (Et : Z.to_nat total = (k + Z.to_nat (total - Z.of_nat k))%nat)
    by lia.
  split; [|split; [|split]].
  - rewrite length_app, !length_map, length_seq. fold k. lia.
  - now rewrite length_map, length_seq.
  - intros Hlt. rewrite lookup_app_r by (rewrite length_map; fold k; lia).
    rewrite length_map. fold k. rewrite Nat.sub_diag.
    destruct (Z.to_nat (total - Z.of_nat k)) as [|m] eqn:E; [lia|].
    reflexivity.
  - intros Hall. rewrite Et, seq_app, map_app. f_equal.
    + rewrite progress_done by lia. subst k.
      apply progress_answered, Hall.
    + simpl. apply eq_sym, progress_pending.
Qed.

End ProgressBarProperties.

Lemma option_highlighting_witness :
  ExerciseOptions.ExerciseOptions 4 (Some (-1)) (Some 2) true !! 2%nat
  = Some ExerciseOptions.optionCorrect /\
  ExerciseOptions.ExerciseOptions 4 (Some (-1)) (Some 2) true !! 0%nat
  = Some ExerciseOptions.optionDefault /\
  ExerciseOptions.optionCorrect <> ExerciseOptions.optionIncorrect.
Proof.
  split; [reflexivity|]. split; [reflexivity|].
  apply (option_highlighting 4 (Some (-1)) (Some 2) true 2 0
           ExerciseOptions.optionCorrect ExerciseOptions.optionDefault
           eq_refl eq_refl).
  right. reflexivity.
Defined.

Lemma progress_bar_items_witness :
  Z.of_nat (length [true; true]) <= 5 /\
  Forall (fun c => c = true) [true; true] /\
  ProgressBar.ProgressBar 5 0 (Some [true; true])
  = ProgressBar.ProgressBar 5 2 None.
Proof.
  split; [simpl; lia|]. split; [repeat constructor|].
  apply (progress_bar_items 5 0 [true; true]); [simpl; lia|].
  repeat constructor.
Defined.

Lemma displayPhase_single_interval_witness :
  let p := {| DisplayPhase.isActive := true; DisplayPhase.onComplete := 1%nat;
              DisplayPhase.onStart := None; DisplayPhase.duration := None |} in
  let p' := {| DisplayPhase.isActive := true; DisplayPhase.onComplete := 2%nat;
               DisplayPhase.onStart := None;
               DisplayPhase.duration := Some 500 |} in
  let w :=
    DisplayPhase.run
      [DisplayPhase.Advance 50; DisplayPhase.Fire 1%positive;
       DisplayPhase.Render p'] (DisplayPhase.mount p 0) in
  DisplayPhase.timers w !! 2%positive
  = Some {| DisplayPhase.period := 50; DisplayPhase.startedAt := 50;
            DisplayPhase.lasts := 500; DisplayPhase.completes := 2%nat |} /\
  DisplayPhase.timerRef w = Some 2%positive.
Proof.
  cbv zeta. split; [reflexivity|].
  eapply (displayPhase_single_interval _ 0
            [DisplayPhase.Advance 50; DisplayPhase.Fire 1%positive;
             DisplayPhase.Render _] 2%positive 2%positive);
    reflexivity.
Defined.

Lemma displayPhase_completes_once_witness :
  let p := {| DisplayPhase.isActive := true; DisplayPhase.onComplete := 1%nat;
              DisplayPhase.onStart := Some 9%nat;
              DisplayPhase.duration := None |} in
  DisplayPhase.activated p (DisplayPhase.mount p 0) /\
  before 3000 [50; 2900] /\
  exists h,
    DisplayPhase.trace
      (DisplayPhase.waitFire h 50
         (DisplayPhase.ticks h [50; 2900] (DisplayPhase.mount p 0)))
    = [DisplayPhase.Started 9%nat; DisplayPhase.Completed 1%nat].
Proof.
  cbv zeta.
  assert (A : DisplayPhase.activated
    {| DisplayPhase.isActive := true; DisplayPhase.onComplete := 1%nat;
       DisplayPhase.onStart := Some 9%nat; DisplayPhase.duration := None |}
    (DisplayPhase.mount
       {| DisplayPhase.isActive := true; DisplayPhase.onComplete := 1%nat;
          DisplayPhase.onStart := Some 9%nat;
          DisplayPhase.duration := None |} 0)).
  { split; [reflexivity|]. left. now exists 0. }
  assert (B : before 3000 [50; 2900]).
  { split; [repeat constructor; lia|right; reflexivity]. }
  split; [exact A|]. split; [exact B|].
  assert (C : 0 <= 50) by lia.
  assert (D : 3000 <= total [50; 2900] + 50) by (vm_compute; discriminate).
  destruct (displayPhase_completes_once _ _ [50; 2900] 50 A B C D)
    as (h & H).
  cbv zeta in H. destruct H as (_ & _ & _ & _ & H & _).
  exists h. exact H.
Defined.

Lemma displayPhase_cancel_witness :
  let p0 := {| DisplayPhase.isActive := true; DisplayPhase.onComplete := 1%nat;
               DisplayPhase.onStart := None;
               DisplayPhase.duration := None |} in
  let p := {| DisplayPhase.isActive := false; DisplayPhase.onComplete := 1%nat;
              DisplayPhase.onStart := None; DisplayPhase.duration := None |} in
  let w := DisplayPhase.run [DisplayPhase.Advance 700] (DisplayPhase.mount p0 0) in
  DisplayPhase.isActive p = false /\
  DisplayPhase.lastDeps w <> None /\
  DisplayPhase.lastDeps w <> Some (DisplayPhase.deps p) /\
  DisplayPhase.timers (DisplayPhase.render p w) = ∅.
Proof.
  cbv zeta.
  set (p0 := {| DisplayPhase.isActive := true;
                DisplayPhase.onComplete := 1%nat;
                DisplayPhase.onStart := None;
                DisplayPhase.duration := None |}).
  set (p := {| DisplayPhase.isActive := false;
               DisplayPhase.onComplete := 1%nat;
               DisplayPhase.onStart := None;
               DisplayPhase.duration := None |}).
  assert (A : DisplayPhase.isActive p = false) by reflexivity.
  assert (B : DisplayPhase.lastDeps
                (DisplayPhase.run [DisplayPhase.Advance 700]
                   (DisplayPhase.mount p0 0)) <> None).
  { intros H. vm_compute in H. discriminate H. }
  assert (C : DisplayPhase.lastDeps
                (DisplayPhase.run [DisplayPhase.Advance 700]
                   (DisplayPhase.mount p0 0))
              <> Some (DisplayPhase.deps p)).
  { intros H. vm_compute in H. discriminate H. }
  split; [exact A|]. split; [exact B|]. split; [exact C|].
  exact (proj1 (displayPhase_cancel p0 0 [DisplayPhase.Advance 700] p
                  A B C _ (or_introl eq_refl))).
Defined.
